(** * run-vcpkg: cache-key derivation and cache interaction ([src/vcpkg-utils.ts])

    A shallow embedding of the static methods of [class Utils] and of the
    parts of the JavaScript runtime and of the npm packages they call.

    - JavaScript strings are sequences of UTF-16 code units ([list N]).
    - Asynchronous code is sequential here: every [await] is a plain bind.
    - Everything observable (log lines, file-system probes, calls of the
      external collaborators) is recorded, in order, in a trace of events;
      a computation ends by returning a value or by throwing. *)

From Stdlib Require Import String Ascii.
From stdpp Require Import base option list gmap.

Open Scope N_scope.

(** ** JavaScript strings *)

Module Js.

Abbreviation jsstring := (list N).

(** A literal of the source: each character of the ASCII literal is one
    code unit. *)
Definition lit (s : string) : jsstring :=
  map N_of_ascii (list_ascii_of_string s).
#[global] Arguments lit : simpl never.

(** [ToBoolean] on [string | undefined | null]: absent and empty are falsy. *)
Definition truthy (o : option jsstring) : bool :=
  match o with
  | Some (_ :: _) => true
  | _ => false
  end.

(** [a || b] on optional strings, ending in a string. *)
Definition or_else (o : option jsstring) (d : jsstring) : jsstring :=
  match o with
  | Some (c :: s) => c :: s
  | _ => d
  end.

(** [a ?? b]: only [undefined]/[null] select the right operand. *)
Definition nullish (o : option jsstring) (d : jsstring) : jsstring :=
  match o with
  | Some s => s
  | None => d
  end.

(** Template-literal interpolation of [string | undefined] / [string | null]. *)
Definition show_undefined (o : option jsstring) : jsstring :=
  nullish o (lit "undefined").
Definition show_null (o : option jsstring) : jsstring :=
  nullish o (lit "null").
Definition show_bool (o : option bool) : jsstring :=
  match o with
  | Some true => lit "true"
  | Some false => lit "false"
  | None => lit "undefined"
  end.

(** [Array.prototype.join(sep)]; an array interpolated in a template
    literal is joined with a comma. *)
Fixpoint join (sep : jsstring) (xs : list jsstring) : jsstring :=
  match xs with
  | [] => []
  | [x] => x
  | x :: rest => x ++ sep ++ join sep rest
  end.

(** WhiteSpace and LineTerminator code points of ECMAScript, the ones
    [String.prototype.trim] strips. *)
Definition is_space (c : N) : bool :=
  (9 <=? c) && (c <=? 13)
  || (c =? 32) || (c =? 160) || (c =? 5760)
  || (8192 <=? c) && (c <=? 8202)
  || (c =? 8232) || (c =? 8233) || (c =? 8239) || (c =? 8287)
  || (c =? 12288) || (c =? 65279).

Fixpoint trimStart (s : jsstring) : jsstring :=
  match s with
  | c :: rest => if is_space c then trimStart rest else s
  | [] => []
  end.

Definition trimEnd (s : jsstring) : jsstring :=
  reverse (trimStart (reverse s)).

Definition trim (s : jsstring) : jsstring := trimEnd (trimStart s).

(** [s.startsWith(p)]. *)
Fixpoint startsWith (p s : jsstring) : bool :=
  match p, s with
  | [], _ => true
  | a :: p', b :: s' => (a =? b) && startsWith p' s'
  | _ :: _, [] => false
  end.

(** [s.replace(pat, rep)] with a string pattern: the first occurrence of
    [pat] is replaced ([rep] is only ever the empty string in the source,
    so no replacement pattern is interpreted). *)
Fixpoint replace (s pat rep : jsstring) : jsstring :=
  if startsWith pat s then rep ++ drop (length pat) s
  else match s with
       | [] => []
       | c :: rest => c :: replace rest pat rep
       end.

End Js.

Import Js.

(** ** [String.prototype.localeCompare] with a [sensitivity] option

    The comparison belongs to the runtime, which takes it from the Unicode
    collation algorithm and the collation of its default locale.  What
    follows tabulates the root collation, the one a runtime uses when its
    default locale does not tailor Latin (en-US and the like), on the
    characters cache keys are made of: the printable characters of Basic
    Latin (U+0020 to U+007E) and the Latin-1 letters that have a canonical
    decomposition (U+00C0 to U+00FF without U+00C6, U+00D0, U+00D7, U+00D8,
    U+00DE, U+00DF and their lower-case forms).  This is the repertoire
    [tabulated] below names, and the properties of the comparison are stated
    for strings of that repertoire.  Every code unit yields collation
    elements with three weights: primary (the base letter), secondary (the
    accent), tertiary (the case).

    Outside the repertoire the table is only indicative: controls carry no
    weight, a combining mark of the Latin-1 decompositions weighs as the
    accent it is, and any other code unit is taken as a base character of
    its own, which leaves aside what the full tables know of it (case pairs
    above U+00FF, compatibility variants such as U+00A0, the canonical order
    of several marks, tailorings of other locales).  Between two different
    base characters the sign of the result follows the code units, not the
    CLDR order; the source only tests the result against zero. *)

Module Collation.

(** The four sensitivities of ECMA-402: "base" tells apart base letters
    only (a = A, a = a-acute); "accent" base letters and accents (a = A, a
    and a-acute differ); "case" base letters and case (a and A differ, a =
    a-acute); "variant" all three. *)
Inductive Sensitivity := SensBase | SensAccent | SensCase | SensVariant.

Record CE := mkCE { primary : N; secondary : N; tertiary : N }.

(** Combining marks of the Latin-1 decompositions. *)
Definition is_mark (c : N) : bool :=
  (c =? 768) || (c =? 769) || (c =? 770) || (c =? 771)
  || (c =? 776) || (c =? 778) || (c =? 807).

(** Controls and the soft hyphen carry no weight at all; the white-space
    controls (U+0009 to U+000D, U+0085) do. *)
Definition is_ignorable (c : N) : bool :=
  (c <=? 8) || (14 <=? c) && (c <=? 31)
  || (127 <=? c) && (c <=? 159) && negb (c =? 133)
  || (c =? 173).

Definition is_upper (c : N) : bool :=
  (65 <=? c) && (c <=? 90)
  || (192 <=? c) && (c <=? 222) && negb (c =? 215).

Definition lower (c : N) : N := if is_upper c then c + 32 else c.

(** Canonical decomposition of the lower-case Latin-1 letters:
    base letter and combining mark. *)
Definition decompose_lower (c : N) : option (N * N) :=
  match c with
  | 224 => Some (97, 768) | 225 => Some (97, 769) | 226 => Some (97, 770)
  | 227 => Some (97, 771) | 228 => Some (97, 776) | 229 => Some (97, 778)
  | 231 => Some (99, 807)
  | 232 => Some (101, 768) | 233 => Some (101, 769) | 234 => Some (101, 770)
  | 235 => Some (101, 776)
  | 236 => Some (105, 768) | 237 => Some (105, 769) | 238 => Some (105, 770)
  | 239 => Some (105, 776)
  | 241 => Some (110, 771)
  | 242 => Some (111, 768) | 243 => Some (111, 769) | 244 => Some (111, 770)
  | 245 => Some (111, 771) | 246 => Some (111, 776)
  | 249 => Some (117, 768) | 250 => Some (117, 769) | 251 => Some (117, 770)
  | 252 => Some (117, 776)
  | 253 => Some (121, 769) | 255 => Some (121, 776)
  | _ => None
  end.

(** Base characters weigh by code unit. *)
Definition primary_of (b : N) : N := b + 1.

Definition common : N := 1.
Definition upper_case : N := 2.

Definition base_ce (b : N) (up : bool) : CE :=
  mkCE (primary_of b) common (if up then upper_case else common).
Definition mark_ce (m : N) : CE := mkCE 0 (m + 2) common.

Definition collation_elements (c : N) : list CE :=
  if is_ignorable c then []
  else if is_mark c then [mark_ce c]
  else match decompose_lower (lower c) with
       | Some (b, m) => [base_ce b (is_upper c); mark_ce m]
       | None => [base_ce (lower c) (is_upper c)]
       end.

Definition elements (s : jsstring) : list CE :=
  flat_map collation_elements s.

Definition weights (level : CE -> N) (s : jsstring) : list N :=
  filter (fun w => w ≠ 0) (map level (elements s)).

Fixpoint compare_weights (xs ys : list N) : comparison :=
  match xs, ys with
  | [], [] => Eq
  | [], _ :: _ => Lt
  | _ :: _, [] => Gt
  | x :: xs', y :: ys' =>
      match x ?= y with
      | Eq => compare_weights xs' ys'
      | c => c
      end
  end.

(** The case level looks at the case of base characters only. *)
Definition case_weight (ce : CE) : N :=
  if primary ce =? 0 then 0 else tertiary ce.

(** The levels a sensitivity compares, most significant first. *)
Definition levels (sens : Sensitivity) : list (CE -> N) :=
  match sens with
  | SensBase => [primary]
  | SensAccent => [primary; secondary]
  | SensCase => [primary; case_weight]
  | SensVariant => [primary; secondary; tertiary]
  end.

Fixpoint compare_levels (ls : list (CE -> N)) (s t : jsstring) : comparison :=
  match ls with
  | [] => Eq
  | l :: ls' =>
      match compare_weights (weights l s) (weights l t) with
      | Eq => compare_levels ls' s t
      | c => c
      end
  end.

(** [s.localeCompare(that, undefined, { sensitivity })]. *)
Definition localeCompare (s that : jsstring) (sens : Sensitivity) : Z :=
  match compare_levels (levels sens) s that with
  | Lt => (-1)%Z
  | Eq => 0%Z
  | Gt => 1%Z
  end.



End Collation.

Import Collation.

(** ** [Utils.isExactKeyMatch] (lines 15-20) *)

Definition isExactKeyMatch (key : jsstring) (cacheKey : option jsstring) : bool :=
  if truthy cacheKey then
    match cacheKey with
    | Some ck => (localeCompare ck key SensAccent =? 0)%Z
    | None => false
    end
  else false.

(** ** Effects: a trace of events, and exceptions *)

(** The severities of the logger [baseLib]: [debug], [info], [warning] and
    [error], the fatal one. *)
Inductive Level := Debug | Info | Warning | Fatal.

#[global] Instance Level_eq_dec : EqDecision Level.
Proof. solve_decision. Defined.

(** An instance of the JavaScript class [Error]. *)
Record JsError := mkError {
  err_name : jsstring;
  err_message : jsstring;
  err_stack : option jsstring
}.

(** What a [throw] carries: an [Error] instance or any other value. *)
Inductive Thrown :=
| ThrownError (e : JsError)
| ThrownValue (v : jsstring).

Inductive Event :=
| Log (lvl : Level) (msg : jsstring)
| BeginOperation (name : jsstring)
| EndOperation
| FsExistsSync (p : jsstring)
| FsReadFileSync (p : jsstring)
| GitGetCommitId (dir : jsstring)
| FastGlob (pattern : jsstring) (ignore : list jsstring)
| CacheSave (paths : list jsstring) (key : jsstring).

Inductive Outcome (A : Type) :=
| Returned (a : A)
| Threw (t : Thrown).
Arguments Returned {A} a.
Arguments Threw {A} t.

Definition Action (A : Type) : Type := list Event * Outcome A.

Definition trace {A} (m : Action A) : list Event := fst m.
Definition outcome {A} (m : Action A) : Outcome A := snd m.

#[global] Instance action_ret : MRet Action := fun A a => ([], Returned a).

#[global] Instance action_bind : MBind Action := fun A B f m =>
  match m with
  | (tr, Returned a) => let '(tr', r) := f a in (tr ++ tr', r)
  | (tr, Threw t) => (tr, Threw t)
  end.

Definition emit (e : Event) : Action unit := ([e], Returned tt).
Definition throw {A} (t : Thrown) : Action A := ([], Threw t).

(** [try { m } catch (err) { handler err }]. *)
Definition try_catch {A} (m : Action A) (handler : Thrown -> Action A) : Action A :=
  match m with
  | (tr, Returned a) => (tr, Returned a)
  | (tr, Threw t) => let '(tr', r) := handler t in (tr ++ tr', r)
  end.

(** [try { m } finally { fin }]: a throw of [fin] replaces the outcome of [m]. *)
Definition try_finally {A} (m : Action A) (fin : Action unit) : Action A :=
  match m, fin with
  | (tr, r), (tr', Returned _) => (tr ++ tr', r)
  | (tr, _), (tr', Threw t) => (tr ++ tr', Threw t)
  end.

(** The logger [baseLib]. *)
Definition debug (msg : jsstring) : Action unit := emit (Log Debug msg).
Definition info (msg : jsstring) : Action unit := emit (Log Info msg).
Definition warning (msg : jsstring) : Action unit := emit (Log Warning msg).

(** ** What the code runs against *)

(** [KeySet] of @lukka/base-util-lib. *)
Record KeySet := mkKeySet { primary_key : jsstring; restore_keys : list jsstring }.

Inductive FsEntry :=
| FsFile (content : jsstring)
| FsDir.

(** Node's [path] module; [resolve] and [join] are variadic. *)
Class PathModule := {
  path_isAbsolute : jsstring -> bool;
  path_normalize : jsstring -> jsstring;
  path_resolve : list jsstring -> jsstring;
  path_join : list jsstring -> jsstring
}.

(** The process environment, the file system, and the behaviour of the
    packages the class calls and whose code is not part of the repository.
    An external call is given by the action it performs on its arguments. *)
Record Host := mkHost {
  env_GITHUB_WORKSPACE : option jsstring;
  env_ImageOS : option jsstring;
  env_ImageVersion : option jsstring;
  process_platform : jsstring;
  files : gmap jsstring FsEntry;
  (* runvcpkglib.VcpkgRunner.getCommitId(baseUtils, dir) *)
  VcpkgRunner_getCommitId : jsstring -> Action jsstring;
  (* runvcpkglib.getOrdinaryCachedPaths(vcpkgRootDir), runvcpkglib.VCPKG_JSON *)
  getOrdinaryCachedPaths : jsstring -> list jsstring;
  VCPKG_JSON : jsstring;
  (* fastglob(pattern, { ignore }) *)
  fastglob_result : jsstring -> list jsstring -> Outcome (list jsstring);
  (* cache.saveCache(paths, key) of @actions/cache; its value is not used *)
  cache_saveCache_result : list jsstring -> jsstring -> Outcome unit;
  (* baseutillib.createKeySet(segments) *)
  createKeySet : list jsstring -> KeySet;
  (* JSON.stringify on a KeySet and on an array of strings *)
  JSON_stringify_keys : KeySet -> jsstring;
  JSON_stringify_paths : list jsstring -> jsstring;
  (* the elapsed-time line wrapOp prints, read off the clock *)
  wrapOp_elapsed : jsstring
}.

(** [cache.ValidationError.name] and [cache.ReserveCacheError.name]: the
    names of the two error classes of @actions/cache. *)
Definition ValidationError_name : jsstring := lit "ValidationError".
Definition ReserveCacheError_name : jsstring := lit "ReserveCacheError".

Section Utils.

Context {P : PathModule}.
Variable h : Host.

(** [fs.existsSync(p)]: true for a file and for a directory. *)
Definition existsSync (p : jsstring) : Action bool :=
  emit (FsExistsSync p) ;;
  mret (bool_decide (is_Some (files h !! p))).

(** [fs.readFileSync(p).toString()]. *)
Definition readFileSync (p : jsstring) : Action jsstring :=
  emit (FsReadFileSync p) ;;
  match files h !! p with
  | Some (FsFile content) => mret content
  | Some FsDir =>
      throw (ThrownError (mkError (lit "Error")
        (lit "EISDIR: illegal operation on a directory, read") None))
  | None =>
      throw (ThrownError (mkError (lit "Error")
        (lit "ENOENT: no such file or directory, open '" ++ p ++ lit "'") None))
  end.

Definition getCommitId (dir : jsstring) : Action jsstring :=
  emit (GitGetCommitId dir) ;; VcpkgRunner_getCommitId h dir.

Definition fastglob (pattern : jsstring) (ignore : list jsstring)
  : Action (list jsstring) :=
  ([FastGlob pattern ignore], fastglob_result h pattern ignore).

Definition cache_saveCache (paths : list jsstring) (key : jsstring) : Action unit :=
  ([CacheSave paths key], cache_saveCache_result h paths key).

(** [BaseUtilLib.wrapOp(name, fn)] of @lukka/base-util-lib: the operation
    runs once between [beginOperation(name)] and, in a [finally] block,
    [endOperation()] and the elapsed-time line; its value or its exception
    is passed on unchanged. *)
Definition wrapOp {A} (name : jsstring) (fn : Action A) : Action A :=
  emit (BeginOperation name) ;;
  try_finally fn (emit EndOperation ;; info (wrapOp_elapsed h)).

(** *** [Utils.getVcpkgCommitId] (lines 31-61) *)

(** Lines 39-42. *)
Definition fullVcpkgPath_of (workspaceDir vcpkgDirectory : jsstring) : jsstring :=
  if path_isAbsolute vcpkgDirectory
  then path_normalize (path_resolve [vcpkgDirectory])
  else path_normalize (path_resolve [path_join [workspaceDir; vcpkgDirectory]]).

(** Lines 44 and 46. *)
Definition submodulePath_of (workspaceDir vcpkgDirectory : jsstring) : jsstring :=
  let relPath := replace (fullVcpkgPath_of workspaceDir vcpkgDirectory) workspaceDir [] in
  path_join [workspaceDir; lit ".git/modules"; relPath; lit "HEAD"].

Definition getVcpkgCommitId (vcpkgDirectory : jsstring)
  : Action (option jsstring * option bool) :=
  debug (lit "getVcpkgCommitId()<<") ;;
  let workspaceDir := nullish (env_GITHUB_WORKSPACE h) [] in
  '(id, isSubmodule) ←
    (if truthy (Some workspaceDir) then
       debug (lit "inputVcpkgPath=" ++ vcpkgDirectory) ;;
       let fullVcpkgPath := fullVcpkgPath_of workspaceDir vcpkgDirectory in
       debug (lit "fullVcpkgPath='" ++ fullVcpkgPath ++ lit "'") ;;
       let relPath := replace fullVcpkgPath workspaceDir [] in
       debug (lit "relPath='" ++ relPath ++ lit "'") ;;
       let submodulePath :=
         path_join [workspaceDir; lit ".git/modules"; relPath; lit "HEAD"] in
       debug (lit "submodulePath='" ++ submodulePath ++ lit "'") ;;
       '(id, isSubmodule) ←
         (isSub ← existsSync submodulePath;
          if isSub : bool then
            id ← readFileSync submodulePath;
            debug (lit "commitId='" ++ id ++ lit "'") ;;
            mret (Some id, Some true)
          else
            isRepo ← existsSync (path_join [fullVcpkgPath; lit ".git"]);
            if isRepo : bool then
              id ← getCommitId fullVcpkgPath;
              mret (Some id, Some false)
            else mret (None, None));
       mret (trim <$> id, isSubmodule)
     else mret (None, None));
  debug (lit "getVcpkgCommitId()>> -> [id=" ++ show_undefined id
         ++ lit ", isSubmodule=" ++ show_bool isSubmodule ++ lit "]") ;;
  mret (id, isSubmodule).

(** *** [Utils.getVcpkgJsonPath] (lines 63-86) *)

Definition getVcpkgJsonPath (vcpkgJsonGlob : jsstring)
  (vcpkgJsonIgnores : list jsstring) : Action (option jsstring) :=
  debug (lit "getVcpkgJsonPath(" ++ vcpkgJsonGlob ++ lit ")<<") ;;
  ret ← try_catch
    (vcpkgJsonPath ← fastglob vcpkgJsonGlob vcpkgJsonIgnores;
     match vcpkgJsonPath with
     | [found] =>
         info (lit "Found " ++ VCPKG_JSON h ++ lit " at '" ++ found ++ lit "'.") ;;
         mret (Some found)
     | _ :: _ :: _ =>
         warning (lit "The file " ++ VCPKG_JSON h
                  ++ lit " was found multiple times with glob expression '"
                  ++ vcpkgJsonGlob ++ lit "'.") ;;
         mret None
     | [] =>
         warning (lit "The file " ++ VCPKG_JSON h
                  ++ lit " was not found with glob expression '"
                  ++ vcpkgJsonGlob ++ lit "'.") ;;
         mret None
     end)
    (fun err =>
       match err with
       | ThrownError e => warning (err_message e)
       | ThrownValue _ => mret tt
       end ;;
       mret None);
  debug (lit "getVcpkgJsonPath()>>") ;;
  mret ret.

(** *** [Utils.computeCacheKeys] (lines 88-122) *)

(** Lines 96-97: the runner and image part of the first segment. *)
Definition runnerSegment : jsstring :=
  (lit "runnerOS="
   ++ (if truthy (env_ImageOS h) then nullish (env_ImageOS h) []
       else process_platform h))
  ++ or_else (env_ImageVersion h) [].

Definition computeCacheKeys (vcpkgDirectory : jsstring)
  (userProvidedCommitId : option jsstring) : Action KeySet :=
  debug (lit "computeCacheKeys()<<") ;;
  let cacheKeySegments : list jsstring := [] in
  let firstSegment := runnerSegment in
  '(commitId, isSubmodule) ← getVcpkgCommitId vcpkgDirectory;
  firstSegment ←
    (if truthy commitId then
       let firstSegment :=
         firstSegment ++ lit "-vcpkgGitCommit=" ++ show_undefined commitId in
       (if bool_decide (isSubmodule = Some true) then
          info (lit "Adding vcpkg submodule Git commit id '"
                ++ show_undefined commitId ++ lit "' to cache key") ;;
          if truthy userProvidedCommitId then
            warning (lit "The provided Git commit id is disregarded: '"
                     ++ show_null userProvidedCommitId
                     ++ lit "'. Please remove it from the inputs.")
          else mret tt
        else
          info (lit "vcpkg identified at Git commit id '"
                ++ show_undefined commitId
                ++ lit "', adding it to the cache's key.")) ;;
       mret firstSegment
     else if truthy userProvidedCommitId then
       let firstSegment :=
         firstSegment ++ lit "-vcpkgGitCommit=" ++ show_null userProvidedCommitId in
       info (lit "Adding user provided vcpkg's Git commit id '"
             ++ show_null userProvidedCommitId ++ lit "' to cache key.") ;;
       mret firstSegment
     else
       info (lit "No vcpkg's commit id was provided, does not contribute to the cache's key.") ;;
       mret firstSegment);
  let cacheKeySegments := cacheKeySegments ++ [firstSegment] in
  let keyset := createKeySet h cacheKeySegments in
  debug (lit "computeCacheKeys()>>") ;;
  mret keyset.

(** *** [Utils.saveCache] (lines 124-168) *)

Definition saveCache_opName : jsstring :=
  lit "Save vcpkg into the GitHub Action cache (only the tool, not the built packages which are saved by vcpkg`s Binary Caching on GitHub Action`s cache).".

(** Lines 139-153: the save attempt and its [catch]. *)
Definition saveAttempt (keys : KeySet) (pathsToCache : list jsstring) : Action unit :=
  try_catch
    (info (lit "Saving cache with primary key '" ++ primary_key keys ++ lit "' ...") ;;
     cache_saveCache pathsToCache (primary_key keys))
    (fun error =>
       match error with
       | ThrownError e =>
           if bool_decide (err_name e = ValidationError_name) then
             throw error
           else if bool_decide (err_name e = ReserveCacheError_name) then
             info (err_message e)
           else
             warning (err_message e)
       | ThrownValue _ => mret tt
       end).

(** Lines 130-155: the operation handed to [wrapOp]. *)
Definition saveCache_op (keys : KeySet) (hitCacheKey : option jsstring)
  (cachedPaths : list jsstring) : Action unit :=
  if truthy hitCacheKey && isExactKeyMatch (primary_key keys) hitCacheKey then
    info (lit "Saving cache is skipped, because cache hit occurred on the cache key '"
          ++ primary_key keys ++ lit "'.")
  else
    info (lit "Saving a new cache entry, because primary key was missed or a fallback restore key was hit.") ;;
    let pathsToCache := cachedPaths in
    info (lit "Caching paths: '" ++ Js.join (lit ",") pathsToCache ++ lit "'") ;;
    saveAttempt keys pathsToCache.

Definition saveCache (keys : KeySet) (hitCacheKey : option jsstring)
  (cachedPaths : list jsstring) : Action unit :=
  debug (lit "saveCache(keys:" ++ JSON_stringify_keys h keys
         ++ lit ",hitCacheKey:" ++ show_null hitCacheKey
         ++ lit ",cachedPaths:" ++ Js.join (lit ",") cachedPaths ++ lit ")<<") ;;
  try_catch
    (wrapOp saveCache_opName (saveCache_op keys hitCacheKey cachedPaths))
    (fun err =>
       warning (lit "vcpkg-utils.saveCache() failed!") ;;
       match err with
       | ThrownError e =>
           warning (err_name e) ;;
           warning (err_message e) ;;
           if truthy (err_stack e) then warning (nullish (err_stack e) [])
           else mret tt
       | ThrownValue _ => mret tt
       end) ;;
  debug (lit "saveCache()>>").

(** *** [Utils.getAllCachedPaths] (lines 170-182) *)

(** [new Set(xs)] spread back into an array: a value is added at the end
    unless the set already holds it. *)
Definition Set_add (s : list jsstring) (x : jsstring) : list jsstring :=
  if bool_decide (x ∈ s) then s else s ++ [x].
Definition Set_of (xs : list jsstring) : list jsstring := foldl Set_add [] xs.

(** [Boolean] as the predicate of [filter], on strings. *)
Definition nonEmpty (s : jsstring) : bool := truthy (Some s).

Definition getAllCachedPaths (vcpkgRootDir : jsstring) : Action (list jsstring) :=
  debug (lit "getAllCachedPaths(" ++ vcpkgRootDir ++ lit ")<<") ;;
  let pathsToCache := getOrdinaryCachedPaths h vcpkgRootDir in
  let pathsToCache := filter (fun s => Is_true (nonEmpty s)) (map trim pathsToCache) in
  let ps := Set_of pathsToCache in
  debug (lit "getAllCachedPaths(" ++ vcpkgRootDir ++ lit ")<< -> '"
         ++ JSON_stringify_paths h ps ++ lit "'") ;;
  mret ps.

End Utils.

(** ** A POSIX instance of the [path] module, and concrete hosts *)

Module Posix.

Definition slash : N := 47.

Fixpoint split (s : jsstring) : list jsstring :=
  match s with
  | [] => [[]]
  | c :: rest =>
      if c =? slash then [] :: split rest
      else match split rest with
           | seg :: segs => (c :: seg) :: segs
           | [] => [[c]]
           end
  end.

(** [normalizeString]: [.] and empty segments vanish, [..] pops a segment
    (or stays, above the start of a relative path). [acc] is the stack of
    kept segments, top first. *)
Fixpoint normalizeSegments (allowAboveRoot : bool) (acc segs : list jsstring)
  : list jsstring :=
  match segs with
  | [] => reverse acc
  | seg :: rest =>
      if bool_decide (seg = [] ∨ seg = lit ".") then
        normalizeSegments allowAboveRoot acc rest
      else if bool_decide (seg = lit "..") then
        match acc with
        | top :: acc' =>
            if bool_decide (top = lit "..")
            then normalizeSegments allowAboveRoot (seg :: acc) rest
            else normalizeSegments allowAboveRoot acc' rest
        | [] =>
            normalizeSegments allowAboveRoot
              (if allowAboveRoot then [seg] else []) rest
        end
      else normalizeSegments allowAboveRoot (seg :: acc) rest
  end.

Definition normalizeString (p : jsstring) (allowAboveRoot : bool) : jsstring :=
  Js.join [slash] (normalizeSegments allowAboveRoot [] (split p)).

Definition isAbsolute (p : jsstring) : bool :=
  match p with
  | c :: _ => c =? slash
  | [] => false
  end.

Definition normalize (p : jsstring) : jsstring :=
  match p with
  | [] => lit "."
  | _ =>
      let trailing := match last p with Some c => c =? slash | None => false end in
      let body := normalizeString p (negb (isAbsolute p)) in
      match body with
      | [] => if isAbsolute p then [slash]
              else if trailing then lit "./" else lit "."
      | _ => (if isAbsolute p then [slash] else [])
             ++ body ++ (if trailing then [slash] else [])
      end
  end.

(** Arguments are taken from the right until one is absolute; the working
    directory comes last. *)
Fixpoint resolveFrom (args : list jsstring) (resolved : jsstring) : jsstring :=
  match args with
  | [] => resolved
  | a :: rest =>
      match a with
      | [] => resolveFrom rest resolved
      | _ => if isAbsolute a then a ++ [slash] ++ resolved
             else resolveFrom rest (a ++ [slash] ++ resolved)
      end
  end.

Definition resolve (cwd : jsstring) (args : list jsstring) : jsstring :=
  let resolved := resolveFrom (reverse args ++ [cwd]) [] in
  let body := normalizeString resolved (negb (isAbsolute resolved)) in
  if isAbsolute resolved then slash :: body
  else match body with [] => lit "." | _ => body end.

Definition join (args : list jsstring) : jsstring :=
  match filter (fun a => a ≠ []) args with
  | [] => lit "."
  | parts => normalize (Js.join [slash] parts)
  end.

Definition pathModule (cwd : jsstring) : PathModule :=
  {| path_isAbsolute := isAbsolute;
     path_normalize := normalize;
     path_resolve := resolve cwd;
     path_join := join |}.

End Posix.

(** Modelled from the spec: [createKeySet] belongs to @lukka/base-util-lib
    and is not in the repository.  The primary key is all the segments
    joined; each restore key drops one more trailing segment, so that N
    segments give N-1 restore keys and one segment gives none. *)
Module KeySets.

Definition separator : jsstring := lit "_".

Fixpoint prefixKeys (n : nat) (segments : list jsstring) : list jsstring :=
  match n with
  | O => []
  | S n' => Js.join separator (take n segments) :: prefixKeys n' segments
  end.

Definition createKeySet (segments : list jsstring) : KeySet :=
  match prefixKeys (length segments) segments with
  | k :: ks => mkKeySet k ks
  | [] => mkKeySet [] []
  end.

End KeySets.

(** [JSON.stringify] on strings without lone surrogates, on arrays of such
    strings and on key sets. *)
Module Json.

Definition hexDigit (n : N) : N := if n <? 10 then 48 + n else 87 + n.

Definition escape (c : N) : jsstring :=
  if c =? 34 then lit "\" ++ [34]
  else if c =? 92 then lit "\\"
  else if c =? 8 then lit "\b"
  else if c =? 9 then lit "\t"
  else if c =? 10 then lit "\n"
  else if c =? 12 then lit "\f"
  else if c =? 13 then lit "\r"
  else if c <? 32 then lit "\u00" ++ [hexDigit (c / 16); hexDigit (c mod 16)]
  else [c].

Definition quote (s : jsstring) : jsstring := [34] ++ flat_map escape s ++ [34].

Definition array (xs : list jsstring) : jsstring :=
  lit "[" ++ Js.join (lit ",") (map quote xs) ++ lit "]".

Definition keySet (k : KeySet) : jsstring :=
  lit "{" ++ quote (lit "primary") ++ lit ":" ++ quote (primary_key k)
  ++ lit "," ++ quote (lit "restore") ++ lit ":" ++ array (restore_keys k)
  ++ lit "}".

End Json.

(** A Linux runner: the workspace variable, the files, what the git query
    answers, the raw cached paths, what the glob finds and how the cache
    store answers a save are given; the rest is fixed. *)
Definition runner (workspace : option jsstring) (fs : gmap jsstring FsEntry)
  (gitAnswer : Outcome jsstring) (rawPaths : list jsstring)
  (globAnswer : Outcome (list jsstring)) (saveAnswer : Outcome unit) : Host :=
  {| env_GITHUB_WORKSPACE := workspace;
     env_ImageOS := Some (lit "ubuntu22");
     env_ImageVersion := None;
     process_platform := lit "linux";
     files := fs;
     VcpkgRunner_getCommitId := fun _ => ([], gitAnswer);
     getOrdinaryCachedPaths := fun _ => rawPaths;
     VCPKG_JSON := lit "vcpkg.json";
     fastglob_result := fun _ _ => globAnswer;
     cache_saveCache_result := fun _ _ => saveAnswer;
     createKeySet := KeySets.createKeySet;
     JSON_stringify_keys := Json.keySet;
     JSON_stringify_paths := Json.array;
     wrapOp_elapsed := lit "elapsed: 0.001 seconds" |}.

Definition posixPaths : PathModule := Posix.pathModule (lit "/ws").

(** ** The statements the properties are measured against *)






(** Duplicates removed, the first occurrence of each value kept in place. *)
Fixpoint firstOccurrences (xs : list jsstring) : list jsstring :=
  match xs with
  | [] => []
  | x :: rest => x :: filter (fun y => y ≠ x) (firstOccurrences rest)
  end.

(** A blank entry: empty, or white space only. *)
Definition blank (s : jsstring) : Prop := trim s = [].

(** The raw list with its blank entries and its duplicates removed. *)
Definition withoutBlanksAndDuplicates (raw : list jsstring) : list jsstring :=
  firstOccurrences (filter (fun s => ¬ blank s) raw).

(** The same, each entry being trimmed first. *)
Definition trimmedWithoutBlanksAndDuplicates (raw : list jsstring) : list jsstring :=
  firstOccurrences (filter (fun s => s ≠ []) (map trim raw)).

(** The messages a trace logs at a level, and the saves it asks of the
    cache store, in order. *)
Definition logged (lvl : Level) (tr : list Event) : list jsstring :=
  omap (fun e => match e with
                 | Log l msg => if bool_decide (l = lvl) then Some msg else None
                 | _ => None
                 end) tr.

Definition savesOf (tr : list Event) : list (list jsstring * jsstring) :=
  omap (fun e => match e with
                 | CacheSave paths key => Some (paths, key)
                 | _ => None
                 end) tr.

(** The claim that a validation error of the store leaves [saveCache]. *)
Definition validationPropagates_claim (h : Host) (keys : KeySet)
  (hitCacheKey : option jsstring) (cachedPaths : list jsstring) : Prop :=
  ∀ e,
    isExactKeyMatch (primary_key keys) hitCacheKey = false →
    cache_saveCache_result h cachedPaths (primary_key keys) = Threw (ThrownError e) →
    err_name e = ValidationError_name →
    outcome (saveCache h keys hitCacheKey cachedPaths) = Threw (ThrownError e).

(** The probes of the file system and the git queries of a trace, in order. *)
Definition probes (tr : list Event) : list Event :=
  omap (fun e => match e with
                 | FsExistsSync _ | FsReadFileSync _ | GitGetCommitId _ => Some e
                 | _ => None
                 end) tr.

(** A workspace [/ws] whose [vcpkg] directory is a submodule: the metadata
    of the parent repository holds its HEAD, and the directory has a [.git]
    entry of its own. *)
Definition submoduleFiles : gmap jsstring FsEntry :=
  <[lit "/ws/.git/modules/vcpkg/HEAD" := FsFile (lit "abc123" ++ [10])]>
  (<[lit "/ws/vcpkg/.git" := FsFile (lit "gitdir: ../.git/modules/vcpkg")]> ∅).

(** The same directory as a clone of its own. *)
Definition cloneFiles : gmap jsstring FsEntry :=
  <[lit "/ws/vcpkg/.git" := FsDir]> ∅.

Definition submoduleRunner (workspace : option jsstring) : Host :=
  runner workspace submoduleFiles (Returned (lit "fedcba")) [] (Returned [])
    (Returned tt).

(** The claim that [getAllCachedPaths] only removes entries. *)
Definition cachedPaths_claim (h : Host) (vcpkgRootDir : jsstring) : Prop :=
  outcome (getAllCachedPaths h vcpkgRootDir)
  = Returned (withoutBlanksAndDuplicates (getOrdinaryCachedPaths h vcpkgRootDir)).

(** A host whose raw cached paths are the given ones. *)
Definition runnerWithPaths (rawPaths : list jsstring) : Host :=
  runner None ∅ (Returned []) rawPaths (Returned []) (Returned tt).

(** The debug lines [getVcpkgCommitId] starts with inside a workspace, and
    the one it ends with. *)
Definition commitIdPreamble {P : PathModule} (workspaceDir vcpkgDirectory : jsstring)
  : list Event :=
  [Log Debug (lit "getVcpkgCommitId()<<");
   Log Debug (lit "inputVcpkgPath=" ++ vcpkgDirectory);
   Log Debug (lit "fullVcpkgPath='" ++ fullVcpkgPath_of workspaceDir vcpkgDirectory ++ lit "'");
   Log Debug (lit "relPath='"
              ++ replace (fullVcpkgPath_of workspaceDir vcpkgDirectory) workspaceDir []
              ++ lit "'");
   Log Debug (lit "submodulePath='" ++ submodulePath_of workspaceDir vcpkgDirectory ++ lit "'")].

Definition commitIdClosing (id : option jsstring) (isSubmodule : option bool) : Event :=
  Log Debug (lit "getVcpkgCommitId()>> -> [id=" ++ show_undefined id
             ++ lit ", isSubmodule=" ++ show_bool isSubmodule ++ lit "]").

(** The error [readFileSync] raises on a directory. *)
Definition EISDIR : Thrown :=
  ThrownError (mkError (lit "Error")
                 (lit "EISDIR: illegal operation on a directory, read") None).

(** A workspace whose submodule metadata has a directory where the HEAD
    file should be, and one whose [vcpkg] clone git cannot read. *)
Definition brokenSubmoduleFiles : gmap jsstring FsEntry :=
  <[lit "/ws/.git/modules/vcpkg/HEAD" := FsDir]> ∅.

Definition gitFailure : Thrown :=
  ThrownError (mkError (lit "Error") (lit "git log failed with exit code 128") None).

Definition runnerOn (fs : gmap jsstring FsEntry) (gitAnswer : Outcome jsstring) : Host :=
  runner (Some (lit "/ws")) fs gitAnswer [] (Returned []) (Returned tt).

(** The glob calls of a trace, in order. *)
Definition globsOf (tr : list Event) : list (jsstring * list jsstring) :=
  omap (fun e => match e with
                 | FastGlob pattern ignore => Some (pattern, ignore)
                 | _ => None
                 end) tr.

(** A submodule whose HEAD file holds a line break only. *)
Definition blankHeadFiles : gmap jsstring FsEntry :=
  <[lit "/ws/.git/modules/vcpkg/HEAD" := FsFile [10]]> ∅.

(** [s.includes(pat)]. *)
Fixpoint includes (s pat : jsstring) : bool :=
  startsWith pat s
  || match s with
     | [] => false
     | _ :: rest => includes rest pat
     end.




(** * Properties *)

(** ** The models at work *)

Example ex_join : Posix.join [lit "/ws"; lit ".git/modules"; lit "/vcpkg"; lit "HEAD"]
                  = lit "/ws/.git/modules/vcpkg/HEAD".
Proof. reflexivity. Qed.
Example ex_resolve : Posix.resolve (lit "/home") [lit "a/../b/"] = lit "/home/b".
Proof. reflexivity. Qed.
Example ex_norm : Posix.normalize (lit "a//b/./../c/") = lit "a/c/".
Proof. reflexivity. Qed.
Example ex_sensitivities :
  let a := lit "a" in let A := lit "A" in let b := lit "b" in let a' := [225] in
  map (fun sens => (localeCompare a b sens, localeCompare a a' sens, localeCompare a A sens))
      [SensBase; SensAccent; SensCase; SensVariant]
  = [(-1, 0, 0); (-1, -1, 0); (-1, 0, -1); (-1, -1, -1)]%Z.
Proof. reflexivity. Qed.
Example ex_decomposed : localeCompare [225] [97; 769] SensVariant = 0%Z.
Proof. reflexivity. Qed.
Example ex_next_line : isExactKeyMatch [] (Some [133]) = false.
Proof. reflexivity. Qed.
Example ex_case : isExactKeyMatch (lit "runnerOS=Linux") (Some (lit "RUNNEROS=linux")) = true.
Proof. reflexivity. Qed.
Example ex_accent : isExactKeyMatch (lit "a") (Some [225]) = false.
Proof. reflexivity. Qed.


(** ** The exact-match predicate *)

Section ExactMatch.












End ExactMatch.









(** *** The comparison on the repertoire *)














(** C10: an empty candidate is treated like an absent one.  For every key
    [isExactKeyMatch key ""] is false, as [isExactKeyMatch key undefined]
    is; in particular [isExactKeyMatch "" ""] is false although the two
    strings compare equal. *)
Theorem isExactKeyMatch_empty_candidate :
  (∀ key, isExactKeyMatch key (Some []) = false
          ∧ isExactKeyMatch key (Some []) = isExactKeyMatch key None)
  ∧ isExactKeyMatch [] (Some []) = false
  ∧ localeCompare [] [] SensAccent = 0%Z.
Proof. repeat split. Qed.

(** ** The cacheable paths *)

Section CachedPaths.

Lemma Set_of_from (acc xs : list jsstring) :
  foldl Set_add acc xs = acc ++ filter (fun y => y ∉ acc) (firstOccurrences xs).
Proof.
  revert acc. induction xs as [|x xs IH]; intros acc; simpl.
  - by rewrite app_nil_r.
  - rewrite IH. unfold Set_add. case_bool_decide as Hx.
    + rewrite filter_cons_False by tauto.
      rewrite list_filter_filter. f_equal. apply list_filter_iff.
      intros y. split; [|tauto]. intros Hy. split; [done|]. by intros ->.
    + rewrite filter_cons_True by done.
      rewrite <- app_assoc. simpl. do 2 f_equal.
      rewrite list_filter_filter. apply list_filter_iff.
      intros y. rewrite elem_of_app, list_elem_of_singleton. tauto.
Qed.

Lemma Set_of_firstOccurrences xs : Set_of xs = firstOccurrences xs.
Proof.
  unfold Set_of. rewrite Set_of_from. simpl.
  induction (firstOccurrences xs) as [|y l IH]; [done|].
  rewrite filter_cons_True by apply not_elem_of_nil. by rewrite IH.
Qed.

Lemma firstOccurrences_elem x xs : x ∈ firstOccurrences xs ↔ x ∈ xs.
Proof.
  induction xs as [|y xs IH]; simpl; [done|].
  rewrite !elem_of_cons, list_elem_of_filter, IH.
  destruct (decide (x = y)) as [->|Hne]; [split; auto|].
  split; [intros [?|[_ ?]]; auto | intros [?|?]; auto].
Qed.

Lemma firstOccurrences_NoDup xs : NoDup (firstOccurrences xs).
Proof.
  induction xs as [|y xs IH]; simpl; constructor.
  - rewrite list_elem_of_filter. intros [Hy _]. by apply Hy.
  - by apply NoDup_filter.
Qed.

Lemma firstOccurrences_sublist xs : firstOccurrences xs `sublist_of` xs.
Proof.
  induction xs as [|y xs IH]; simpl; [done|].
  apply sublist_skip. etrans; [apply sublist_filter | done].
Qed.

Lemma getAllCachedPaths_value (h : Host) root :
  outcome (getAllCachedPaths h root)
  = Returned (trimmedWithoutBlanksAndDuplicates (getOrdinaryCachedPaths h root)).
Proof.
  unfold getAllCachedPaths, trimmedWithoutBlanksAndDuplicates; simpl.
  rewrite Set_of_firstOccurrences. do 2 f_equal.
  apply list_filter_iff. intros [|c s]; simpl; split; try done.
Qed.

End CachedPaths.

(** ** Saving the cache *)

Lemma exactMatch_truthy key (hit : option jsstring) :
  truthy hit && isExactKeyMatch key hit = isExactKeyMatch key hit.
Proof. unfold isExactKeyMatch. by destruct (truthy hit). Qed.

Ltac run_saveCache :=
  unfold saveCache, wrapOp, saveCache_op, saveAttempt, cache_saveCache;
  rewrite exactMatch_truthy.

Section SaveCache.

Variable h : Host.
Variables (keys : KeySet) (hitCacheKey : option jsstring) (cachedPaths : list jsstring).

(** Whatever the store does, [saveCache] returns. *)
Lemma saveCache_returns :
  outcome (saveCache h keys hitCacheKey cachedPaths) = Returned tt.
Proof.
  run_saveCache.
  destruct (isExactKeyMatch (primary_key keys) hitCacheKey); [reflexivity|].
  destruct (cache_saveCache_result h cachedPaths (primary_key keys)) as [[]|[e|v]];
    simpl; try reflexivity.
  repeat case_bool_decide; simpl; try reflexivity.
  destruct (truthy (err_stack e)); reflexivity.
Qed.

End SaveCache.

(** C4: when the hit key is an exact match of the primary key (which needs
    it present), [saveCache] asks nothing of the cache store; in every other
    case (no hit key, an empty one, or a hit on another key such as a
    restore key) it asks for exactly one save, of the given paths, under the
    primary key. *)
Theorem saveCache_saves_unless_exact_hit (h : Host) (keys : KeySet)
  (hitCacheKey : option jsstring) (cachedPaths : list jsstring) :
  savesOf (trace (saveCache h keys hitCacheKey cachedPaths))
  = if isExactKeyMatch (primary_key keys) hitCacheKey then []
    else [(cachedPaths, primary_key keys)].
Proof.
  run_saveCache.
  destruct (isExactKeyMatch (primary_key keys) hitCacheKey); [reflexivity|].
  destruct (cache_saveCache_result h cachedPaths (primary_key keys)) as [[]|[e|v]];
    simpl; try reflexivity.
  repeat case_bool_decide; simpl; try reflexivity.
  destruct (truthy (err_stack e)); reflexivity.
Qed.

(** C2 (counterexample): the store answers the save of [/vcpkg] under the
    key [k] with a ValidationError; [saveCache] returns all the same. *)
Lemma saveCache_validation_counterexample :
  ¬ validationPropagates_claim
      (runner None ∅ (Returned []) [] (Returned [])
         (Threw (ThrownError (mkError ValidationError_name (lit "Key Validation Error") None))))
      (mkKeySet (lit "k") []) None [lit "/vcpkg"].
Proof.
  intros H. specialize (H _ eq_refl eq_refl eq_refl). vm_compute in H. discriminate.
Qed.

(** C2 (amended): when the save raises a ValidationError, the error leaves
    the save attempt and the operation wrapped by [wrapOp]; the handler at
    the top of [saveCache] catches it and logs, as warnings, that the save
    failed, then the name, the message and (when there is one) the stack of
    the error; [saveCache] itself returns. *)
Theorem saveCache_validation_caught_at_top (h : Host) (keys : KeySet)
  (hitCacheKey : option jsstring) (cachedPaths : list jsstring) (e : JsError) :
  isExactKeyMatch (primary_key keys) hitCacheKey = false →
  cache_saveCache_result h cachedPaths (primary_key keys) = Threw (ThrownError e) →
  err_name e = ValidationError_name →
  outcome (saveAttempt h keys cachedPaths) = Threw (ThrownError e)
  ∧ outcome (saveCache_op h keys hitCacheKey cachedPaths) = Threw (ThrownError e)
  ∧ outcome (wrapOp h saveCache_opName (saveCache_op h keys hitCacheKey cachedPaths))
    = Threw (ThrownError e)
  ∧ outcome (saveCache h keys hitCacheKey cachedPaths) = Returned tt
  ∧ logged Warning (trace (saveCache h keys hitCacheKey cachedPaths))
    = [lit "vcpkg-utils.saveCache() failed!"; err_name e; err_message e]
      ++ (if truthy (err_stack e) then [nullish (err_stack e) []] else []).
Proof.
  intros Hmiss Hsave Hname.
  split; [|split; [|split; [|split]]]; try apply saveCache_returns.
  all: run_saveCache || unfold wrapOp, saveCache_op, saveAttempt, cache_saveCache;
    rewrite ?exactMatch_truthy, ?Hmiss, Hsave; simpl;
    rewrite bool_decide_eq_true_2 by done; simpl; try reflexivity.
  destruct (truthy (err_stack e)); reflexivity.
Qed.

Lemma saveCache_validation_caught_at_top_witness :
  let h := runner None ∅ (Returned []) [] (Returned [])
             (Threw (ThrownError (mkError ValidationError_name
                                    (lit "Key Validation Error") (Some (lit "at save"))))) in
  outcome (saveCache h (mkKeySet (lit "k") []) None [lit "/vcpkg"]) = Returned tt
  ∧ logged Warning (trace (saveCache h (mkKeySet (lit "k") []) None [lit "/vcpkg"]))
    = [lit "vcpkg-utils.saveCache() failed!"; lit "ValidationError";
       lit "Key Validation Error"; lit "at save"].
Proof.
  intros h.
  destruct (saveCache_validation_caught_at_top h (mkKeySet (lit "k") []) None
              [lit "/vcpkg"] _ eq_refl eq_refl eq_refl) as (_ & _ & _ & Hr & Hw).
  split; [exact Hr | exact Hw].
Defined.

(** C6: when the save fails with an error that is not a ValidationError,
    [saveCache] returns.  A ReserveCacheError is logged with its message at
    the informational level and no warning is logged; any other error is
    logged with its message as the one warning. *)
Theorem saveCache_swallows_store_errors (h : Host) (keys : KeySet)
  (hitCacheKey : option jsstring) (cachedPaths : list jsstring) (e : JsError) :
  isExactKeyMatch (primary_key keys) hitCacheKey = false →
  cache_saveCache_result h cachedPaths (primary_key keys) = Threw (ThrownError e) →
  err_name e ≠ ValidationError_name →
  let tr := trace (saveCache h keys hitCacheKey cachedPaths) in
  outcome (saveCache h keys hitCacheKey cachedPaths) = Returned tt
  ∧ logged Fatal tr = []
  ∧ (err_name e = ReserveCacheError_name →
       logged Warning tr = [] ∧ err_message e ∈ logged Info tr)
  ∧ (err_name e ≠ ReserveCacheError_name → logged Warning tr = [err_message e]).
Proof.
  intros Hmiss Hsave Hname tr. subst tr.
  split; [apply saveCache_returns|].
  run_saveCache. rewrite Hmiss, Hsave. simpl.
  rewrite bool_decide_eq_false_2 by done.
  case_bool_decide as Hres; simpl; (split; [reflexivity|]); split; intros Hr;
    try done.
  split; [reflexivity|]. set_solver.
Qed.

Lemma saveCache_swallows_store_errors_witness :
  let reserved := mkError ReserveCacheError_name (lit "Unable to reserve cache") None in
  let outage := mkError (lit "Error") (lit "Cache service responded with 503") None in
  let save answer := saveCache (runner None ∅ (Returned []) [] (Returned []) (Threw answer))
                       (mkKeySet (lit "k") []) (Some (lit "other")) [lit "/vcpkg"] in
  (outcome (save (ThrownError reserved)) = Returned tt
   ∧ logged Warning (trace (save (ThrownError reserved))) = [])
  ∧ (outcome (save (ThrownError outage)) = Returned tt
     ∧ logged Warning (trace (save (ThrownError outage)))
       = [lit "Cache service responded with 503"]).
Proof.
  intros reserved outage save. split.
  - destruct (saveCache_swallows_store_errors
                (runner None ∅ (Returned []) [] (Returned []) (Threw (ThrownError reserved)))
                (mkKeySet (lit "k") []) (Some (lit "other")) [lit "/vcpkg"] reserved
                eq_refl eq_refl ltac:(by vm_compute)) as (Hr & _ & Hres & _).
    split; [exact Hr | exact (proj1 (Hres eq_refl))].
  - destruct (saveCache_swallows_store_errors
                (runner None ∅ (Returned []) [] (Returned []) (Threw (ThrownError outage)))
                (mkKeySet (lit "k") []) (Some (lit "other")) [lit "/vcpkg"] outage
                eq_refl eq_refl ltac:(by vm_compute)) as (Hr & _ & _ & Hother).
    split; [exact Hr | exact (Hother ltac:(by vm_compute))].
Defined.

(** ** Looking for the manifest *)

(** C8: [getVcpkgJsonPath] never raises and never logs a fatal error.  With
    exactly one match it returns that match.  With no match, with several,
    or when the glob throws, it returns null; a warning is logged for no
    match, for several matches and for a thrown error (its message). *)
Theorem getVcpkgJsonPath_null_unless_single_match (h : Host)
  (vcpkgJsonGlob : jsstring) (vcpkgJsonIgnores : list jsstring) :
  let run := getVcpkgJsonPath h vcpkgJsonGlob vcpkgJsonIgnores in
  logged Fatal (trace run) = []
  ∧ match fastglob_result h vcpkgJsonGlob vcpkgJsonIgnores with
    | Returned [found] =>
        outcome run = Returned (Some found) ∧ logged Warning (trace run) = []
    | Returned [] =>
        outcome run = Returned None
        ∧ logged Warning (trace run)
          = [lit "The file " ++ VCPKG_JSON h
             ++ lit " was not found with glob expression '" ++ vcpkgJsonGlob ++ lit "'."]
    | Returned (_ :: _ :: _) =>
        outcome run = Returned None
        ∧ logged Warning (trace run)
          = [lit "The file " ++ VCPKG_JSON h
             ++ lit " was found multiple times with glob expression '"
             ++ vcpkgJsonGlob ++ lit "'."]
    | Threw (ThrownError e) =>
        outcome run = Returned None ∧ logged Warning (trace run) = [err_message e]
    | Threw (ThrownValue _) => outcome run = Returned None
    end.
Proof.
  unfold getVcpkgJsonPath, fastglob.
  destruct (fastglob_result h vcpkgJsonGlob vcpkgJsonIgnores)
    as [[|found [|another more]]|[e|v]]; simpl; repeat split.
Qed.

(** ** The commit id of the vcpkg directory *)

Section CommitId.

Context {P : PathModule}.
Variable h : Host.
Variable vcpkgDirectory : jsstring.

(** Without a workspace the body of the [if] at line 36 is skipped. *)
Lemma getVcpkgCommitId_no_workspace :
  truthy (Some (nullish (env_GITHUB_WORKSPACE h) [])) = false →
  getVcpkgCommitId h vcpkgDirectory
  = ([Log Debug (lit "getVcpkgCommitId()<<");
      Log Debug (lit "getVcpkgCommitId()>> -> [id=undefined, isSubmodule=undefined]")],
     Returned (None, None)).
Proof. intros Hws. unfold getVcpkgCommitId. rewrite Hws. reflexivity. Qed.

End CommitId.

(** C9: with GITHUB_WORKSPACE unset or empty, [getVcpkgCommitId] returns
    [[undefined, undefined]] for every directory, and its trace holds the
    two debug lines only: no file is probed and git is not asked. *)
Theorem getVcpkgCommitId_without_workspace {P : PathModule} (h : Host)
  (vcpkgDirectory : jsstring) :
  env_GITHUB_WORKSPACE h = None ∨ env_GITHUB_WORKSPACE h = Some [] →
  outcome (getVcpkgCommitId h vcpkgDirectory) = Returned (None, None)
  ∧ probes (trace (getVcpkgCommitId h vcpkgDirectory)) = []
  ∧ trace (getVcpkgCommitId h vcpkgDirectory)
    = [Log Debug (lit "getVcpkgCommitId()<<");
       Log Debug (lit "getVcpkgCommitId()>> -> [id=undefined, isSubmodule=undefined]")].
Proof.
  intros Hws. rewrite getVcpkgCommitId_no_workspace; [by repeat split|].
  by destruct Hws as [-> | ->].
Qed.

Lemma getVcpkgCommitId_without_workspace_witness :
  outcome (getVcpkgCommitId (P := posixPaths) (submoduleRunner None) (lit "vcpkg"))
  = Returned (None, None)
  ∧ outcome (getVcpkgCommitId (P := posixPaths) (submoduleRunner (Some [])) (lit "vcpkg"))
    = Returned (None, None).
Proof.
  split.
  - apply (getVcpkgCommitId_without_workspace (P := posixPaths)
             (submoduleRunner None) (lit "vcpkg")). left. reflexivity.
  - apply (getVcpkgCommitId_without_workspace (P := posixPaths)
             (submoduleRunner (Some [])) (lit "vcpkg")). right. reflexivity.
Defined.

Ltac no_such_event H :=
  repeat (apply elem_of_cons in H as [H|H]; [discriminate|]);
  apply elem_of_nil in H.

(** C5: in a workspace, when the file [<workspace>/.git/modules/<relative
    path>/HEAD] exists, the directory is a submodule: the commit id is the
    trimmed content of that file and [isSubmodule] is true, whether or not
    the directory has a [.git] entry, which is not even probed.  The git
    query, and an answer with [isSubmodule] false, occur only when nothing
    exists at the path of the submodule file. *)
Theorem getVcpkgCommitId_submodule_first {P : PathModule} (h : Host)
  (vcpkgDirectory workspaceDir : jsstring) :
  env_GITHUB_WORKSPACE h = Some workspaceDir →
  workspaceDir ≠ [] →
  let run := getVcpkgCommitId h vcpkgDirectory in
  let submodulePath := submodulePath_of workspaceDir vcpkgDirectory in
  (∀ content,
     files h !! submodulePath = Some (FsFile content) →
     outcome run = Returned (Some (trim content), Some true)
     ∧ probes (trace run) = [FsExistsSync submodulePath; FsReadFileSync submodulePath])
  ∧ ((∃ dir, GitGetCommitId dir ∈ trace run) → files h !! submodulePath = None)
  ∧ (∀ id, outcome run = Returned (id, Some false) → files h !! submodulePath = None)
  ∧ (∀ tr id,
       files h !! submodulePath = None →
       is_Some (files h !! path_join [fullVcpkgPath_of workspaceDir vcpkgDirectory; lit ".git"]) →
       VcpkgRunner_getCommitId h (fullVcpkgPath_of workspaceDir vcpkgDirectory)
       = (tr, Returned id) →
       outcome run = Returned (Some (trim id), Some false)).
Proof.
  intros Hws Hne run submodulePath. subst run.
  unfold getVcpkgCommitId. rewrite Hws. simpl nullish.
  destruct workspaceDir as [|c ws]; [done|]. simpl truthy. cbv iota.
  fold (fullVcpkgPath_of (c :: ws) vcpkgDirectory).
  fold (submodulePath_of (c :: ws) vcpkgDirectory). fold submodulePath.
  unfold existsSync, readFileSync, getCommitId.
  destruct (files h !! submodulePath) as [[content|]|] eqn:Hfile.
  - simpl. split; [|split; [|split]].
    + intros ? [= <-]. by split.
    + intros [dir Hin]. exfalso. by no_such_event Hin.
    + intros id [=].
    + intros tr id [=].
  - simpl. split; [|split; [|split]].
    + intros ? [=].
    + intros [dir Hin]. exfalso. by no_such_event Hin.
    + intros id [=].
    + intros tr id [=].
  - split; [intros ? [=] | split; [|split]]; try (intros; reflexivity).
    intros tr id _ Hgit Hquery. simpl.
    rewrite bool_decide_eq_true_2 by done. simpl. rewrite Hquery. reflexivity.
Qed.

Lemma getVcpkgCommitId_submodule_first_witness :
  outcome (getVcpkgCommitId (P := posixPaths) (submoduleRunner (Some (lit "/ws"))) (lit "vcpkg"))
  = Returned (Some (lit "abc123"), Some true)
  ∧ files (submoduleRunner (Some (lit "/ws"))) !! lit "/ws/vcpkg/.git"
    = Some (FsFile (lit "gitdir: ../.git/modules/vcpkg")).
Proof.
  split; [|vm_compute; reflexivity].
  destruct (getVcpkgCommitId_submodule_first (P := posixPaths)
              (submoduleRunner (Some (lit "/ws"))) (lit "vcpkg") (lit "/ws")
              eq_refl ltac:(by vm_compute)) as (Hsub & _).
  apply (Hsub (lit "abc123" ++ [10])). by vm_compute.
Defined.

(** ** The cache key *)

Lemma logged_app lvl tr tr' : logged lvl (tr ++ tr') = logged lvl tr ++ logged lvl tr'.
Proof. apply omap_app. Qed.

(** C3: the commit id that enters the first segment.  A commit id detected
    for the directory is appended as [-vcpkgGitCommit=<id>], whatever the
    override, which is not part of the key; the override is warned about
    when the directory is a submodule and an override was given.  Without a
    detected commit id, a given override is appended as
    [-vcpkgGitCommit=<override>]; without either, the segment is the
    runner and image prefix alone. *)
Theorem computeCacheKeys_commit_precedence {P : PathModule} (h : Host)
  (vcpkgDirectory : jsstring) (userProvidedCommitId : option jsstring)
  (tr : list Event) (commitId : option jsstring) (isSubmodule : option bool) :
  getVcpkgCommitId h vcpkgDirectory = (tr, Returned (commitId, isSubmodule)) →
  let run := computeCacheKeys h vcpkgDirectory userProvidedCommitId in
  match commitId with
  | Some (c :: id) =>
      outcome run
      = Returned (createKeySet h [runnerSegment h ++ lit "-vcpkgGitCommit=" ++ c :: id])
      ∧ logged Warning (trace run)
        = logged Warning tr
          ++ (if bool_decide (isSubmodule = Some true) && truthy userProvidedCommitId
              then [lit "The provided Git commit id is disregarded: '"
                    ++ show_null userProvidedCommitId
                    ++ lit "'. Please remove it from the inputs."]
              else [])
  | _ =>
      match userProvidedCommitId with
      | Some (o :: override) =>
          outcome run
          = Returned (createKeySet h
                        [runnerSegment h ++ lit "-vcpkgGitCommit=" ++ o :: override])
      | _ => outcome run = Returned (createKeySet h [runnerSegment h])
      end
      ∧ logged Warning (trace run) = logged Warning tr
  end.
Proof.
  intros Hid run. subst run. unfold computeCacheKeys. rewrite Hid. simpl.
  destruct commitId as [[|c id]|], userProvidedCommitId as [[|o override]|];
    simpl; rewrite ?logged_app, ?app_nil_r; try (split; reflexivity).
  all: case_bool_decide; simpl; rewrite ?logged_app, ?app_nil_r; split; reflexivity.
Qed.

Lemma computeCacheKeys_commit_precedence_witness :
  let run workspace override :=
    computeCacheKeys (P := posixPaths) (submoduleRunner workspace) (lit "vcpkg") override in
  (outcome (run (Some (lit "/ws")) (Some (lit "zzz")))
   = Returned (mkKeySet (lit "runnerOS=ubuntu22-vcpkgGitCommit=abc123") [])
   ∧ logged Warning (trace (run (Some (lit "/ws")) (Some (lit "zzz"))))
     = [lit "The provided Git commit id is disregarded: 'zzz'. Please remove it from the inputs."])
  ∧ (outcome (run None (Some (lit "deadbeef")))
     = Returned (mkKeySet (lit "runnerOS=ubuntu22-vcpkgGitCommit=deadbeef") [])
     ∧ logged Warning (trace (run None (Some (lit "deadbeef")))) = [])
  ∧ (outcome (run None None) = Returned (mkKeySet (lit "runnerOS=ubuntu22") [])
     ∧ logged Warning (trace (run None None)) = []).
Proof.
  intros run. split; [|split].
  - exact (computeCacheKeys_commit_precedence (P := posixPaths)
             (submoduleRunner (Some (lit "/ws"))) (lit "vcpkg") (Some (lit "zzz"))
             _ (Some (lit "abc123")) (Some true) eq_refl).
  - exact (computeCacheKeys_commit_precedence (P := posixPaths)
             (submoduleRunner None) (lit "vcpkg") (Some (lit "deadbeef"))
             _ None None eq_refl).
  - exact (computeCacheKeys_commit_precedence (P := posixPaths)
             (submoduleRunner None) (lit "vcpkg") None _ None None eq_refl).
Defined.

(** C7 (counterexample): of the raw paths [" a"] and ["a"] only ["a"] is
    returned: the entries are trimmed before duplicates are looked for, so
    the first entry is not returned as it was given. *)
Lemma getAllCachedPaths_counterexample :
  ¬ cachedPaths_claim (runnerWithPaths [lit " a"; lit "a"]) (lit "/vcpkg").
Proof. unfold cachedPaths_claim. vm_compute. discriminate. Qed.

(** C7 (amended): [getAllCachedPaths] returns the raw paths, each trimmed,
    without the ones that are empty once trimmed and without duplicates, in
    the order of first occurrence.  The result has no duplicate, holds
    exactly the non-empty trimmed raw paths, keeps their order, and is the
    raw list without blanks and duplicates when no kept entry has white
    space around it. *)
Theorem getAllCachedPaths_trims_and_deduplicates (h : Host) (vcpkgRootDir : jsstring) :
  let raw := getOrdinaryCachedPaths h vcpkgRootDir in
  let ps := trimmedWithoutBlanksAndDuplicates raw in
  outcome (getAllCachedPaths h vcpkgRootDir) = Returned ps
  ∧ NoDup ps
  ∧ (∀ p, p ∈ ps ↔ p ≠ [] ∧ ∃ r, r ∈ raw ∧ trim r = p)
  ∧ ps `sublist_of` map trim raw
  ∧ (Forall (fun r => trim r = r ∨ blank r) raw → ps = withoutBlanksAndDuplicates raw).
Proof.
  intros raw ps. subst ps. unfold trimmedWithoutBlanksAndDuplicates.
  split; [apply getAllCachedPaths_value|].
  split; [apply firstOccurrences_NoDup|].
  split; [|split].
  - intros p. rewrite firstOccurrences_elem, list_elem_of_filter, list_elem_of_fmap.
    split; intros [Hp (r & Hr1 & Hr2)]; (split; [done|]); by exists r.
  - etrans; [apply firstOccurrences_sublist | apply sublist_filter].
  - intros Hraw. unfold withoutBlanksAndDuplicates. f_equal.
    induction Hraw as [|r raw' Hr _ IH]; [done|].
    cbn [map]. unfold blank in *.
    destruct (decide (trim r = [])) as [Hb|Hb].
    + rewrite !filter_cons_False by (simpl; tauto). exact IH.
    + rewrite !filter_cons_True by done. destruct Hr as [Hr|Hr]; [|done].
      by rewrite IH, Hr.
Qed.

(** The example of the specification. *)
Example getAllCachedPaths_example :
  outcome (getAllCachedPaths
             (runnerWithPaths [lit "a"; lit " "; lit "b"; lit "a"; lit ""]) (lit "/vcpkg"))
  = Returned [lit "a"; lit "b"].
Proof. reflexivity. Qed.

(** * Further properties of the code *)

(** ** [trim], as the code relies on it *)

Lemma trimStart_head s :
  trimStart s = [] ∨ ∃ c r, trimStart s = c :: r ∧ is_space c = false.
Proof.
  induction s as [|c s IH]; [by left|]. simpl.
  destruct (is_space c) eqn:Hc; [exact IH|]. right. by exists c, s.
Qed.

Lemma trimStart_fixed c r : is_space c = false → trimStart (c :: r) = c :: r.
Proof. intros Hc. simpl. by rewrite Hc. Qed.

Lemma trimStart_idem s : trimStart (trimStart s) = trimStart s.
Proof.
  destruct (trimStart_head s) as [-> | (c & r & -> & Hc)]; [done|].
  by apply trimStart_fixed.
Qed.

Lemma trimStart_snoc l c :
  is_space c = false → ∃ l', trimStart (l ++ [c]) = l' ++ [c].
Proof.
  intros Hc. induction l as [|x l IH]; simpl.
  - rewrite Hc. by exists [].
  - destruct (is_space x); [exact IH|]. by exists (x :: l).
Qed.

Lemma trimEnd_head c r :
  is_space c = false → ∃ r', trimEnd (c :: r) = c :: r'.
Proof.
  intros Hc. unfold trimEnd. rewrite reverse_cons.
  destruct (trimStart_snoc (reverse r) c Hc) as [l' ->].
  exists (reverse l'). by rewrite reverse_app.
Qed.

Lemma trimEnd_idem s : trimEnd (trimEnd s) = trimEnd s.
Proof. unfold trimEnd. by rewrite reverse_involutive, trimStart_idem. Qed.

Lemma trim_head s : trim s = [] ∨ ∃ c r, trim s = c :: r ∧ is_space c = false.
Proof.
  unfold trim. destruct (trimStart_head s) as [-> | (c & r & -> & Hc)]; [by left|].
  right. destruct (trimEnd_head c r Hc) as [r' ->]. by exists c, r'.
Qed.

Lemma trim_last s c : last (trim s) = Some c → is_space c = false.
Proof.
  unfold trim, trimEnd. rewrite last_reverse.
  destruct (trimStart_head (reverse (trimStart s))) as [-> | (c' & r & -> & Hc)];
    [done|]. by intros [= <-].
Qed.

Lemma trim_idem s : trim (trim s) = trim s.
Proof.
  destruct (trim_head s) as [-> | (c & r & Hs & Hc)]; [done|].
  unfold trim at 1. rewrite Hs, (trimStart_fixed _ _ Hc), <- Hs.
  unfold trim. apply trimEnd_idem.
Qed.

(** ** More on the cacheable paths *)

Lemma filter_all {A} (Q : A → Prop) `{!∀ x, Decision (Q x)} (l : list A) :
  Forall Q l → filter Q l = l.
Proof.
  induction 1 as [|x l Hx _ IH]; [done|]. by rewrite filter_cons_True, IH.
Qed.

Lemma firstOccurrences_NoDup_id xs : NoDup xs → firstOccurrences xs = xs.
Proof.
  induction 1 as [|x xs Hx _ IH]; [done|]. simpl. rewrite IH. f_equal.
  apply filter_all, Forall_forall. by intros y Hy ->.
Qed.

Lemma trimmed_elem raw p :
  p ∈ trimmedWithoutBlanksAndDuplicates raw → p ≠ [] ∧ ∃ r, r ∈ raw ∧ p = trim r.
Proof.
  unfold trimmedWithoutBlanksAndDuplicates.
  rewrite firstOccurrences_elem, list_elem_of_filter, list_elem_of_fmap.
  intros [Hp (r & -> & Hr)]. split; [done|]. by exists r.
Qed.

Lemma trimmed_fixed raw :
  trimmedWithoutBlanksAndDuplicates (trimmedWithoutBlanksAndDuplicates raw)
  = trimmedWithoutBlanksAndDuplicates raw.
Proof.
  set (ps := trimmedWithoutBlanksAndDuplicates raw).
  assert (Forall (fun p => p ≠ [] ∧ trim p = p) ps) as Hps.
  { apply Forall_forall. intros p (Hp & r & _ & ->)%trimmed_elem.
    split; [done | apply trim_idem]. }
  unfold trimmedWithoutBlanksAndDuplicates at 1.
  assert (map trim ps = ps) as ->.
  { clear -Hps. induction Hps as [|p ps [_ Hp] _ IH]; [done|].
    cbn [map]. by rewrite Hp, IH. }
  rewrite filter_all by (eapply Forall_impl; [exact Hps | by intros p [? _]]).
  apply firstOccurrences_NoDup_id, firstOccurrences_NoDup.
Qed.

(** X1: every path [getAllCachedPaths] returns is non-empty and has no
    white space at either end. *)
Theorem getAllCachedPaths_entries_trimmed (h : Host) (vcpkgRootDir : jsstring) :
  ∃ ps, outcome (getAllCachedPaths h vcpkgRootDir) = Returned ps
        ∧ ∀ p, p ∈ ps →
            p ≠ [] ∧ trim p = p
            ∧ ∀ c, head p = Some c ∨ last p = Some c → is_space c = false.
Proof.
  eexists. split; [apply getAllCachedPaths_value|].
  intros p (Hp & r & _ & ->)%trimmed_elem. split; [done|].
  split; [apply trim_idem|]. intros c [Hc|Hc]; [|by eapply trim_last].
  destruct (trim_head r) as [He | (c' & r' & He & Hs)]; rewrite He in Hc;
    [done|]. by injection Hc as <-.
Qed.

(** X2: cleaning is idempotent: a host that hands back, as its raw paths,
    the list [getAllCachedPaths] returned gets that same list again. *)
Theorem getAllCachedPaths_idempotent (h h' : Host) (root root' : jsstring)
  (ps : list jsstring) :
  outcome (getAllCachedPaths h root) = Returned ps →
  getOrdinaryCachedPaths h' root' = ps →
  outcome (getAllCachedPaths h' root') = Returned ps.
Proof.
  rewrite !getAllCachedPaths_value. intros [= <-] ->. by rewrite trimmed_fixed.
Qed.

Lemma getAllCachedPaths_idempotent_witness :
  outcome (getAllCachedPaths (runnerWithPaths [lit "/vcpkg"; lit "!/vcpkg/installed"])
             (lit "/vcpkg"))
  = Returned [lit "/vcpkg"; lit "!/vcpkg/installed"].
Proof.
  apply (getAllCachedPaths_idempotent
           (runnerWithPaths [lit " /vcpkg"; lit ""; lit "!/vcpkg/installed "; lit "/vcpkg"])
           _ (lit "/vcpkg") (lit "/vcpkg")); reflexivity.
Defined.

(** X3: [getAllCachedPaths] never returns more paths than it was given,
    and returns none when every raw path is blank. *)
Theorem getAllCachedPaths_shrinks (h : Host) (vcpkgRootDir : jsstring) :
  ∃ ps, outcome (getAllCachedPaths h vcpkgRootDir) = Returned ps
        ∧ (length ps <= length (getOrdinaryCachedPaths h vcpkgRootDir))%nat
        ∧ (Forall blank (getOrdinaryCachedPaths h vcpkgRootDir) → ps = []).
Proof.
  eexists. split; [apply getAllCachedPaths_value|].
  unfold trimmedWithoutBlanksAndDuplicates. split.
  - etrans; [apply sublist_length, firstOccurrences_sublist|].
    etrans; [apply length_filter|]. by rewrite length_map.
  - intros Hb. assert (filter (fun s => s ≠ [])
                         (map trim (getOrdinaryCachedPaths h vcpkgRootDir)) = []) as ->; [|done].
    induction Hb as [|r raw Hr _ IH]; [done|].
    cbn [map]. by rewrite filter_cons_False by (intros Hne; by apply Hne).
Qed.

(** ** More on the exact-match predicate *)



(** ** More on saving the cache *)

Ltac saveCache_cases h keys hitCacheKey cachedPaths :=
  run_saveCache;
  destruct (isExactKeyMatch (primary_key keys) hitCacheKey) eqn:?;
    [|destruct (cache_saveCache_result h cachedPaths (primary_key keys))
        as [[]|[?e|?v]] eqn:?; simpl;
      [| repeat case_bool_decide; simpl;
         try destruct (truthy (err_stack e)) eqn:? |]].

(** X5: [saveCache] returns for every answer of the cache store, thrown
    values that are no [Error] included, and its trace always opens with
    the debug line of the call and closes with [saveCache()>>]. *)
Theorem saveCache_never_throws (h : Host) (keys : KeySet)
  (hitCacheKey : option jsstring) (cachedPaths : list jsstring) :
  ∃ middle,
    saveCache h keys hitCacheKey cachedPaths
    = (Log Debug (lit "saveCache(keys:" ++ JSON_stringify_keys h keys
                  ++ lit ",hitCacheKey:" ++ show_null hitCacheKey
                  ++ lit ",cachedPaths:" ++ Js.join (lit ",") cachedPaths ++ lit ")<<")
         :: middle ++ [Log Debug (lit "saveCache()>>")],
       Returned tt).
Proof.
  saveCache_cases h keys hitCacheKey cachedPaths;
    (eexists; f_equal; f_equal;
     repeat first [ reflexivity
                  | instantiate (1 := []); reflexivity
                  | instantiate (1 := _ :: _); f_equal ]).
Qed.

(** X6: [saveCache] logs a warning exactly when it attempted the save and
    the store threw an [Error] whose name is not ReserveCacheError; a
    skipped save, a successful one, a reservation conflict and a thrown
    value that is no [Error] leave no warning. *)
Theorem saveCache_warns_iff_store_error (h : Host) (keys : KeySet)
  (hitCacheKey : option jsstring) (cachedPaths : list jsstring) :
  logged Warning (trace (saveCache h keys hitCacheKey cachedPaths)) ≠ []
  ↔ isExactKeyMatch (primary_key keys) hitCacheKey = false
    ∧ ∃ e, cache_saveCache_result h cachedPaths (primary_key keys) = Threw (ThrownError e)
           ∧ err_name e ≠ ReserveCacheError_name.
Proof.
  saveCache_cases h keys hitCacheKey cachedPaths; simpl;
    (split; [intros Hw; try done | intros (Hm & e' & He & Hn); try done]).
  all: try (split; [done|]; eexists; split; [reflexivity|]).
  all: try (injection He as <-; done).
  all: try (intros Hr; match goal with
            | H1 : err_name _ = ValidationError_name |- _ =>
                rewrite Hr in H1; vm_compute in H1; discriminate
            end).
  all: try done.
Qed.





(** ** More on the commit id *)

(** Inside a workspace, the five ways [getVcpkgCommitId] can go. *)
Lemma getVcpkgCommitId_in_workspace {P : PathModule} (h : Host)
  (vcpkgDirectory workspaceDir : jsstring) :
  env_GITHUB_WORKSPACE h = Some workspaceDir →
  workspaceDir ≠ [] →
  let sub := submodulePath_of workspaceDir vcpkgDirectory in
  let full := fullVcpkgPath_of workspaceDir vcpkgDirectory in
  let git := path_join [full; lit ".git"] in
  let pre := commitIdPreamble workspaceDir vcpkgDirectory in
  getVcpkgCommitId h vcpkgDirectory
  = match files h !! sub with
    | Some (FsFile content) =>
        (pre ++ [FsExistsSync sub; FsReadFileSync sub;
                 Log Debug (lit "commitId='" ++ content ++ lit "'");
                 commitIdClosing (Some (trim content)) (Some true)],
         Returned (Some (trim content), Some true))
    | Some FsDir => (pre ++ [FsExistsSync sub; FsReadFileSync sub], Threw EISDIR)
    | None =>
        match files h !! git with
        | Some _ =>
            match VcpkgRunner_getCommitId h full with
            | (tr, Returned id) =>
                (pre ++ [FsExistsSync sub; FsExistsSync git; GitGetCommitId full] ++ tr
                 ++ [commitIdClosing (Some (trim id)) (Some false)],
                 Returned (Some (trim id), Some false))
            | (tr, Threw t) =>
                (pre ++ [FsExistsSync sub; FsExistsSync git; GitGetCommitId full] ++ tr,
                 Threw t)
            end
        | None =>
            (pre ++ [FsExistsSync sub; FsExistsSync git; commitIdClosing None None],
             Returned (None, None))
        end
    end.
Proof.
  intros Hws Hne sub full git pre. subst pre.
  unfold getVcpkgCommitId, commitIdPreamble, commitIdClosing, EISDIR.
  rewrite Hws. simpl nullish.
  destruct workspaceDir as [|c ws]; [done|]. simpl truthy. cbv iota.
  fold (fullVcpkgPath_of (c :: ws) vcpkgDirectory).
  fold (submodulePath_of (c :: ws) vcpkgDirectory). fold sub. fold full. fold git.
  unfold existsSync, readFileSync, getCommitId.
  destruct (files h !! sub) as [[content|]|]; [reflexivity..|].
  destruct (files h !! git) as [entry|]; [|reflexivity].
  simpl. destruct (VcpkgRunner_getCommitId h full) as [tr [id|t]]; simpl.
  - by rewrite <- !app_assoc.
  - reflexivity.
Qed.

Lemma probes_app tr tr' : probes (tr ++ tr') = probes tr ++ probes tr'.
Proof. apply omap_app. Qed.

(** X9: inside a workspace the existence of the submodule file is always
    probed first.  If something is there it is read and nothing else is
    touched; otherwise the [.git] entry is probed, and git is asked only
    when that entry exists.  No other file is probed or read. *)
Theorem getVcpkgCommitId_probes {P : PathModule} (h : Host)
  (vcpkgDirectory workspaceDir : jsstring) :
  env_GITHUB_WORKSPACE h = Some workspaceDir →
  workspaceDir ≠ [] →
  let sub := submodulePath_of workspaceDir vcpkgDirectory in
  let full := fullVcpkgPath_of workspaceDir vcpkgDirectory in
  let git := path_join [full; lit ".git"] in
  probes (trace (getVcpkgCommitId h vcpkgDirectory))
  = match files h !! sub with
    | Some _ => [FsExistsSync sub; FsReadFileSync sub]
    | None =>
        match files h !! git with
        | Some _ => [FsExistsSync sub; FsExistsSync git; GitGetCommitId full]
                    ++ probes (trace (VcpkgRunner_getCommitId h full))
        | None => [FsExistsSync sub; FsExistsSync git]
        end
    end.
Proof.
  intros Hws Hne sub full git.
  rewrite (getVcpkgCommitId_in_workspace h vcpkgDirectory workspaceDir Hws Hne).
  fold sub full git.
  destruct (files h !! sub) as [[content|]|]; [reflexivity..|].
  destruct (files h !! git) as [entry|]; [|reflexivity].
  destruct (VcpkgRunner_getCommitId h full) as [tr [id|t]]; unfold trace; simpl;
    rewrite ?probes_app; simpl; by rewrite ?app_nil_r.
Qed.

Lemma getVcpkgCommitId_probes_witness :
  probes (trace (getVcpkgCommitId (P := posixPaths)
                   (runnerOn cloneFiles (Returned (lit "fedcba"))) (lit "vcpkg")))
  = [FsExistsSync (lit "/ws/.git/modules/vcpkg/HEAD"); FsExistsSync (lit "/ws/vcpkg/.git");
     GitGetCommitId (lit "/ws/vcpkg")].
Proof.
  exact (getVcpkgCommitId_probes (P := posixPaths)
           (runnerOn cloneFiles (Returned (lit "fedcba"))) (lit "vcpkg") (lit "/ws")
           eq_refl ltac:(by vm_compute)).
Defined.

(** X10: whatever the host, when [getVcpkgCommitId] returns, the commit id
    and the submodule flag are both absent or both present, and a present
    commit id is trimmed. *)
Theorem getVcpkgCommitId_result_shape {P : PathModule} (h : Host)
  (vcpkgDirectory : jsstring) :
  match outcome (getVcpkgCommitId h vcpkgDirectory) with
  | Returned (Some id, Some _) => trim id = id
  | Returned (None, None) => True
  | Returned _ => False
  | Threw _ => True
  end.
Proof.
  destruct (env_GITHUB_WORKSPACE h) as [[|c ws]|] eqn:Hws.
  - by rewrite getVcpkgCommitId_no_workspace by by rewrite Hws.
  - rewrite (getVcpkgCommitId_in_workspace h vcpkgDirectory (c :: ws) Hws) by done.
    destruct (files h !! _) as [[content|]|]; simpl; [apply trim_idem | done |].
    destruct (files h !! _) as [entry|]; [|done].
    destruct (VcpkgRunner_getCommitId h _) as [tr [id|t]]; simpl; [apply trim_idem | done].
  - by rewrite getVcpkgCommitId_no_workspace by by rewrite Hws.
Qed.

(** X11: [getVcpkgCommitId] catches nothing.  A directory at the path of the
    submodule file makes it throw the read error; and when git is asked and
    throws, that exception leaves the method, whose closing debug line is
    then not logged. *)
Theorem getVcpkgCommitId_errors_escape {P : PathModule} (h : Host)
  (vcpkgDirectory workspaceDir : jsstring) :
  env_GITHUB_WORKSPACE h = Some workspaceDir →
  workspaceDir ≠ [] →
  let sub := submodulePath_of workspaceDir vcpkgDirectory in
  let full := fullVcpkgPath_of workspaceDir vcpkgDirectory in
  let run := getVcpkgCommitId h vcpkgDirectory in
  (files h !! sub = Some FsDir → outcome run = Threw EISDIR)
  ∧ (∀ tr t,
       files h !! sub = None →
       is_Some (files h !! path_join [full; lit ".git"]) →
       VcpkgRunner_getCommitId h full = (tr, Threw t) →
       outcome run = Threw t
       ∧ trace run = commitIdPreamble workspaceDir vcpkgDirectory
                     ++ [FsExistsSync sub; FsExistsSync (path_join [full; lit ".git"]);
                         GitGetCommitId full] ++ tr).
Proof.
  intros Hws Hne sub full run. subst run.
  rewrite (getVcpkgCommitId_in_workspace h vcpkgDirectory workspaceDir Hws Hne).
  fold sub full. split.
  - by intros ->.
  - intros tr t -> [entry ->] ->. by split.
Qed.

Lemma getVcpkgCommitId_errors_escape_witness :
  outcome (getVcpkgCommitId (P := posixPaths)
             (runnerOn brokenSubmoduleFiles (Returned [])) (lit "vcpkg")) = Threw EISDIR
  ∧ outcome (getVcpkgCommitId (P := posixPaths)
               (runnerOn cloneFiles (Threw gitFailure)) (lit "vcpkg")) = Threw gitFailure.
Proof.
  split.
  - apply (getVcpkgCommitId_errors_escape (P := posixPaths)
             (runnerOn brokenSubmoduleFiles (Returned [])) (lit "vcpkg") (lit "/ws")
             eq_refl ltac:(by vm_compute)).
    by vm_compute.
  - eapply (getVcpkgCommitId_errors_escape (P := posixPaths)
              (runnerOn cloneFiles (Threw gitFailure)) (lit "vcpkg") (lit "/ws")
              eq_refl ltac:(by vm_compute)).
    + by vm_compute.
    + vm_compute. eauto.
    + reflexivity.
Defined.

(** X12: inside a workspace, a directory with neither submodule metadata
    nor a [.git] entry is no repository: the answer is
    [[undefined, undefined]] and git is not asked. *)
Theorem getVcpkgCommitId_not_a_repository {P : PathModule} (h : Host)
  (vcpkgDirectory workspaceDir : jsstring) :
  env_GITHUB_WORKSPACE h = Some workspaceDir →
  workspaceDir ≠ [] →
  files h !! submodulePath_of workspaceDir vcpkgDirectory = None →
  files h !! path_join [fullVcpkgPath_of workspaceDir vcpkgDirectory; lit ".git"] = None →
  outcome (getVcpkgCommitId h vcpkgDirectory) = Returned (None, None)
  ∧ ∀ dir, GitGetCommitId dir ∉ trace (getVcpkgCommitId h vcpkgDirectory).
Proof.
  intros Hws Hne Hsub Hgit.
  rewrite (getVcpkgCommitId_in_workspace h vcpkgDirectory workspaceDir Hws Hne).
  rewrite Hsub, Hgit. split; [done|]. intros dir Hin. by no_such_event Hin.
Qed.

Lemma getVcpkgCommitId_not_a_repository_witness :
  outcome (getVcpkgCommitId (P := posixPaths) (runnerOn ∅ (Returned (lit "fedcba")))
             (lit "/opt/vcpkg"))
  = Returned (None, None).
Proof.
  apply (getVcpkgCommitId_not_a_repository (P := posixPaths)
           (runnerOn ∅ (Returned (lit "fedcba"))) (lit "/opt/vcpkg") (lit "/ws")
           eq_refl ltac:(by vm_compute)); reflexivity.
Defined.

(** ** The path of the submodule file *)

Lemma replace_eq s pat rep :
  replace s pat rep
  = if startsWith pat s then rep ++ drop (length pat) s
    else match s with
         | [] => []
         | c :: rest => c :: replace rest pat rep
         end.
Proof. by destruct s. Qed.

Lemma startsWith_app p s : startsWith p (p ++ s) = true.
Proof. induction p as [|c p IH]; [done|]. simpl. by rewrite N.eqb_refl, IH. Qed.

Lemma replace_prefix p rest rep : replace (p ++ rest) p rep = rep ++ rest.
Proof. by rewrite replace_eq, startsWith_app, drop_app_length. Qed.

Lemma replace_absent s pat rep : includes s pat = false → replace s pat rep = s.
Proof.
  induction s as [|c s IH]; simpl; intros [Hs Hi]%orb_false_elim; rewrite Hs; [done|].
  by rewrite IH.
Qed.

(** X13: for a directory inside the workspace (its full path is the
    workspace path followed by a rest) the submodule file is looked for at
    [<workspace>/.git/modules/<rest>/HEAD]. *)
Theorem submodulePath_inside_workspace {P : PathModule}
  (workspaceDir vcpkgDirectory rest : jsstring) :
  fullVcpkgPath_of workspaceDir vcpkgDirectory = workspaceDir ++ rest →
  submodulePath_of workspaceDir vcpkgDirectory
  = path_join [workspaceDir; lit ".git/modules"; rest; lit "HEAD"].
Proof. intros Hfull. unfold submodulePath_of. by rewrite Hfull, replace_prefix. Qed.

Lemma submodulePath_inside_workspace_witness :
  submodulePath_of (P := posixPaths) (lit "/ws") (lit "deps/../vcpkg")
  = lit "/ws/.git/modules/vcpkg/HEAD".
Proof.
  exact (submodulePath_inside_workspace (P := posixPaths) (lit "/ws")
           (lit "deps/../vcpkg") (lit "/vcpkg") eq_refl).
Defined.

(** X14: for a directory whose full path does not contain the workspace
    path, nothing is cut off: the submodule file is looked for under
    [<workspace>/.git/modules] followed by the whole path of the directory. *)
Theorem submodulePath_outside_workspace {P : PathModule}
  (workspaceDir vcpkgDirectory : jsstring) :
  includes (fullVcpkgPath_of workspaceDir vcpkgDirectory) workspaceDir = false →
  submodulePath_of workspaceDir vcpkgDirectory
  = path_join [workspaceDir; lit ".git/modules";
               fullVcpkgPath_of workspaceDir vcpkgDirectory; lit "HEAD"].
Proof. intros Hout. unfold submodulePath_of. by rewrite replace_absent. Qed.

Lemma submodulePath_outside_workspace_witness :
  submodulePath_of (P := posixPaths) (lit "/ws") (lit "/opt/vcpkg")
  = lit "/ws/.git/modules/opt/vcpkg/HEAD".
Proof.
  exact (submodulePath_outside_workspace (P := posixPaths) (lit "/ws") (lit "/opt/vcpkg")
           eq_refl).
Defined.

(** ** More on the cache key *)

(** X15: [computeCacheKeys] catches nothing.  Inside a workspace, a
    directory at the path of the submodule file makes it throw the read
    error, and a failing git query makes it throw what git threw, whatever
    the override; no key set is returned. *)
Theorem computeCacheKeys_propagates {P : PathModule} (h : Host)
  (vcpkgDirectory workspaceDir : jsstring) (userProvidedCommitId : option jsstring) :
  env_GITHUB_WORKSPACE h = Some workspaceDir →
  workspaceDir ≠ [] →
  let sub := submodulePath_of workspaceDir vcpkgDirectory in
  let full := fullVcpkgPath_of workspaceDir vcpkgDirectory in
  let run := computeCacheKeys h vcpkgDirectory userProvidedCommitId in
  (files h !! sub = Some FsDir →
     outcome run = Threw EISDIR ∧ logged Info (trace run) = [])
  ∧ (∀ tr t,
       files h !! sub = None →
       is_Some (files h !! path_join [full; lit ".git"]) →
       VcpkgRunner_getCommitId h full = (tr, Threw t) →
       outcome run = Threw t ∧ logged Info (trace run) = logged Info tr).
Proof.
  intros Hws Hne sub full run. subst run. unfold computeCacheKeys.
  rewrite (getVcpkgCommitId_in_workspace h vcpkgDirectory workspaceDir Hws Hne).
  fold sub full. split.
  - intros ->. by unfold commitIdPreamble.
  - intros tr t -> [entry ->] ->. by unfold commitIdPreamble.
Qed.

Lemma computeCacheKeys_propagates_witness :
  outcome (computeCacheKeys (P := posixPaths) (runnerOn brokenSubmoduleFiles (Returned []))
             (lit "vcpkg") (Some (lit "deadbeef")))
  = Threw EISDIR
  ∧ outcome (computeCacheKeys (P := posixPaths) (runnerOn cloneFiles (Threw gitFailure))
               (lit "vcpkg") None)
    = Threw gitFailure.
Proof.
  split.
  - destruct (computeCacheKeys_propagates (P := posixPaths)
                (runnerOn brokenSubmoduleFiles (Returned [])) (lit "vcpkg") (lit "/ws")
                (Some (lit "deadbeef")) eq_refl ltac:(by vm_compute)) as (Hdir & _).
    apply Hdir. by vm_compute.
  - destruct (computeCacheKeys_propagates (P := posixPaths)
                (runnerOn cloneFiles (Threw gitFailure)) (lit "vcpkg") (lit "/ws")
                None eq_refl ltac:(by vm_compute)) as (_ & Hgit).
    eapply Hgit.
    + by vm_compute.
    + vm_compute. eauto.
    + reflexivity.
Defined.

(** X16: without a workspace (GITHUB_WORKSPACE unset or empty) the directory
    plays no part: [computeCacheKeys] does the same for any two directories,
    touches no file and does not ask git. *)
Theorem computeCacheKeys_without_workspace {P : PathModule} (h : Host)
  (userProvidedCommitId : option jsstring) :
  env_GITHUB_WORKSPACE h = None ∨ env_GITHUB_WORKSPACE h = Some [] →
  ∀ dir dir',
    computeCacheKeys h dir userProvidedCommitId = computeCacheKeys h dir' userProvidedCommitId
    ∧ probes (trace (computeCacheKeys h dir userProvidedCommitId)) = []
    ∧ outcome (computeCacheKeys h dir userProvidedCommitId)
      = Returned (createKeySet h
                    [runnerSegment h
                     ++ (if truthy userProvidedCommitId
                         then lit "-vcpkgGitCommit=" ++ show_null userProvidedCommitId
                         else [])]).
Proof.
  intros Hws dir dir'. unfold computeCacheKeys.
  rewrite !getVcpkgCommitId_no_workspace by (by destruct Hws as [-> | ->]).
  split; [done|]. simpl.
  destruct userProvidedCommitId as [[|o ov]|]; simpl; by rewrite ?app_nil_r.
Qed.

Lemma computeCacheKeys_without_workspace_witness :
  computeCacheKeys (P := posixPaths) (submoduleRunner None) (lit "vcpkg") (Some (lit "deadbeef"))
  = computeCacheKeys (P := posixPaths) (submoduleRunner None) (lit "/elsewhere") (Some (lit "deadbeef")).
Proof.
  apply (computeCacheKeys_without_workspace (P := posixPaths) (submoduleRunner None)
           (Some (lit "deadbeef")) (or_introl eq_refl) (lit "vcpkg") (lit "/elsewhere")).
Defined.

(** X17: in a submodule the key is made from the trimmed content of the
    HEAD file, the same for every override and whatever the [.git] entry of
    the directory. *)
Theorem computeCacheKeys_submodule {P : PathModule} (h : Host)
  (vcpkgDirectory workspaceDir content : jsstring) :
  env_GITHUB_WORKSPACE h = Some workspaceDir →
  workspaceDir ≠ [] →
  files h !! submodulePath_of workspaceDir vcpkgDirectory = Some (FsFile content) →
  trim content ≠ [] →
  ∀ userProvidedCommitId,
    outcome (computeCacheKeys h vcpkgDirectory userProvidedCommitId)
    = Returned (createKeySet h [runnerSegment h ++ lit "-vcpkgGitCommit=" ++ trim content]).
Proof.
  intros Hws Hne Hfile Hid override. unfold computeCacheKeys.
  rewrite (getVcpkgCommitId_in_workspace h vcpkgDirectory workspaceDir Hws Hne), Hfile.
  simpl. destruct (trim content) as [|c id]; [done|].
  destruct override as [[|o ov]|]; reflexivity.
Qed.

Lemma computeCacheKeys_submodule_witness :
  outcome (computeCacheKeys (P := posixPaths) (submoduleRunner (Some (lit "/ws")))
             (lit "/ws/vcpkg") None)
  = Returned (mkKeySet (lit "runnerOS=ubuntu22-vcpkgGitCommit=abc123") []).
Proof.
  exact (computeCacheKeys_submodule (P := posixPaths) (submoduleRunner (Some (lit "/ws")))
           (lit "/ws/vcpkg") (lit "/ws") (lit "abc123" ++ [10])
           eq_refl ltac:(by vm_compute) eq_refl ltac:(by vm_compute) None).
Defined.

(** X18: a submodule whose HEAD file is blank gives no commit id: the key
    falls back to the override when there is one, to the runner prefix
    otherwise, and no warning about the override is logged. *)
Theorem computeCacheKeys_blank_head {P : PathModule} (h : Host)
  (vcpkgDirectory workspaceDir content : jsstring)
  (userProvidedCommitId : option jsstring) :
  env_GITHUB_WORKSPACE h = Some workspaceDir →
  workspaceDir ≠ [] →
  files h !! submodulePath_of workspaceDir vcpkgDirectory = Some (FsFile content) →
  trim content = [] →
  outcome (computeCacheKeys h vcpkgDirectory userProvidedCommitId)
  = Returned (createKeySet h
                [runnerSegment h
                 ++ (if truthy userProvidedCommitId
                     then lit "-vcpkgGitCommit=" ++ show_null userProvidedCommitId
                     else [])])
  ∧ logged Warning (trace (computeCacheKeys h vcpkgDirectory userProvidedCommitId)) = [].
Proof.
  intros Hws Hne Hfile Hblank. unfold computeCacheKeys.
  rewrite (getVcpkgCommitId_in_workspace h vcpkgDirectory workspaceDir Hws Hne), Hfile.
  rewrite Hblank. simpl.
  destruct userProvidedCommitId as [[|o ov]|]; simpl; by rewrite ?app_nil_r.
Qed.

Lemma computeCacheKeys_blank_head_witness :
  outcome (computeCacheKeys (P := posixPaths) (runnerOn blankHeadFiles (Returned []))
             (lit "vcpkg") (Some (lit "deadbeef")))
  = Returned (mkKeySet (lit "runnerOS=ubuntu22-vcpkgGitCommit=deadbeef") []).
Proof.
  apply (computeCacheKeys_blank_head (P := posixPaths) (runnerOn blankHeadFiles (Returned []))
           (lit "vcpkg") (lit "/ws") [10] (Some (lit "deadbeef"))
           eq_refl ltac:(by vm_compute) eq_refl eq_refl).
Defined.

(** X19: for a clone of its own (no submodule metadata, a [.git] entry) the
    key is made from the trimmed answer of git; an override is left out of
    the key without any warning. *)
Theorem computeCacheKeys_clone {P : PathModule} (h : Host)
  (vcpkgDirectory workspaceDir id : jsstring) (tr : list Event) :
  env_GITHUB_WORKSPACE h = Some workspaceDir →
  workspaceDir ≠ [] →
  files h !! submodulePath_of workspaceDir vcpkgDirectory = None →
  is_Some (files h !! path_join [fullVcpkgPath_of workspaceDir vcpkgDirectory; lit ".git"]) →
  VcpkgRunner_getCommitId h (fullVcpkgPath_of workspaceDir vcpkgDirectory)
  = (tr, Returned id) →
  trim id ≠ [] →
  ∀ userProvidedCommitId,
    outcome (computeCacheKeys h vcpkgDirectory userProvidedCommitId)
    = Returned (createKeySet h [runnerSegment h ++ lit "-vcpkgGitCommit=" ++ trim id])
    ∧ logged Warning (trace (computeCacheKeys h vcpkgDirectory userProvidedCommitId))
      = logged Warning tr.
Proof.
  intros Hws Hne Hsub [entry Hgit] Hquery Hid override. unfold computeCacheKeys.
  rewrite (getVcpkgCommitId_in_workspace h vcpkgDirectory workspaceDir Hws Hne).
  rewrite Hsub, Hgit, Hquery. simpl.
  destruct (trim id) as [|c cs]; [done|].
  destruct override as [[|o ov]|]; simpl; rewrite !logged_app; simpl;
    by rewrite ?app_nil_r.
Qed.

Lemma computeCacheKeys_clone_witness :
  outcome (computeCacheKeys (P := posixPaths)
             (runnerOn cloneFiles (Returned (lit " fedcba" ++ [10]))) (lit "vcpkg")
             (Some (lit "zzz")))
  = Returned (mkKeySet (lit "runnerOS=ubuntu22-vcpkgGitCommit=fedcba") [])
  ∧ logged Warning (trace (computeCacheKeys (P := posixPaths)
                             (runnerOn cloneFiles (Returned (lit " fedcba" ++ [10])))
                             (lit "vcpkg") (Some (lit "zzz")))) = [].
Proof.
  eapply (computeCacheKeys_clone (P := posixPaths)
            (runnerOn cloneFiles (Returned (lit " fedcba" ++ [10]))) (lit "vcpkg") (lit "/ws")
            (lit " fedcba" ++ [10]) [] eq_refl ltac:(by vm_compute) eq_refl).
  - vm_compute. eauto.
  - reflexivity.
  - by vm_compute.
Defined.

(** ** More on the manifest lookup *)

(** X20: [getVcpkgJsonPath] calls the glob once, with the pattern and the
    ignore list it was given; it returns a path exactly when the glob
    returned that single path, and logs its one informational line exactly
    then. *)
Theorem getVcpkgJsonPath_single_glob (h : Host) (vcpkgJsonGlob : jsstring)
  (vcpkgJsonIgnores : list jsstring) :
  let run := getVcpkgJsonPath h vcpkgJsonGlob vcpkgJsonIgnores in
  globsOf (trace run) = [(vcpkgJsonGlob, vcpkgJsonIgnores)]
  ∧ (∀ found, outcome run = Returned (Some found)
              ↔ fastglob_result h vcpkgJsonGlob vcpkgJsonIgnores = Returned [found])
  ∧ (∀ found, fastglob_result h vcpkgJsonGlob vcpkgJsonIgnores = Returned [found] →
              logged Info (trace run)
              = [lit "Found " ++ VCPKG_JSON h ++ lit " at '" ++ found ++ lit "'."])
  ∧ ((∀ found, fastglob_result h vcpkgJsonGlob vcpkgJsonIgnores ≠ Returned [found]) →
     logged Info (trace run) = []).
Proof.
  unfold getVcpkgJsonPath, fastglob.
  destruct (fastglob_result h vcpkgJsonGlob vcpkgJsonIgnores)
    as [[|found [|another more]]|[e|v]]; simpl;
    (split; [reflexivity|]); (split; [|split]);
    try (intros found'; split; intros [=]; by subst);
    try (intros found' [=]; by subst); try done.
  intros Hno. by destruct (Hno found).
Qed.
